(** * ADS light and switch entities: a shallow embedding

    The development follows [custom_components/ads_extended/light.py] and
    [custom_components/ads_extended/switch.py].  Python effects are made
    explicit: a computation runs over a [World] holding the records emitted
    through [_LOGGER] and the writes handed to the shared ADS hub, and it
    either returns a value or raises an exception. *)

From Stdlib Require Import ZArith String List Sorted Lia.
From Stdlib Require Import SpecFloat.
From stdpp Require Import base strings gmap list.

Local Open Scope Z_scope.

Set Warnings "-register-all".

(** ** Python values and exceptions *)

Module Py.

(** The exceptions the modelled code can meet. *)
Inductive exn : Type :=
| ValueError
| TypeError
| OverflowError
| IndexError
| KeyError.

Global Instance exn_eq_dec : EqDecision exn.
Proof. solve_decision. Defined.

(** Run-time values that can sit in an entity's state mapping.  A float is
    kept as its IEEE class with sign, mantissa and exponent. *)
Inductive val : Type :=
| None_
| Bool (b : bool)
| Int (z : Z)
| Float (f : spec_float)
| Str (s : string)
| Tuple (items : list val)
| List (items : list val).

(** [type(v)] *)
Inductive type : Type :=
| NoneType | bool_ | int_ | float_ | str_ | tuple_ | list_.

Definition type_of (v : val) : type :=
  match v with
  | None_ => NoneType
  | Bool _ => bool_
  | Int _ => int_
  | Float _ => float_
  | Str _ => str_
  | Tuple _ => tuple_
  | List _ => list_
  end.

(** Outcome of evaluating an expression or running a statement. *)
Inductive outcome (A : Type) : Type :=
| Return (a : A)
| Raise (e : exn).
Global Arguments Return {A} a.
Global Arguments Raise {A} e.

(** [int(f)] on a finite float truncates towards zero. *)
Definition trunc_finite (s : bool) (m : positive) (e : Z) : Z :=
  let mag := if 0 <=? e then Z.pos m * 2 ^ e else Z.pos m / 2 ^ (- e) in
  if s then - mag else mag.

Section Builtins.

(** [int(s)] on a string is the interpreter's literal parser: [Some n]
    when the text denotes the integer [n], [None] when it raises
    [ValueError]. *)
Variable int_of_str : string -> option Z.

(** The builtin [int(v)]. *)
Definition int (v : val) : outcome Z :=
  match v with
  | None_ => Raise TypeError
  | Bool b => Return (if b then 1 else 0)
  | Int z => Return z
  | Float (S754_zero _) => Return 0
  | Float (S754_infinity _) => Raise OverflowError
  | Float S754_nan => Raise ValueError
  | Float (S754_finite s m e) => Return (trunc_finite s m e)
  | Str s =>
      match int_of_str s with
      | Some z => Return z
      | None => Raise ValueError
      end
  | Tuple _ | List _ => Raise TypeError
  end.

End Builtins.

(** [seq[i]] on the items of a tuple or list. *)
Definition item (items : list val) (i : nat) : outcome val :=
  match items !! i with
  | Some v => Return v
  | None => Raise IndexError
  end.

End Py.

(** ** Collaborators: logger and hub *)

(** Arguments interpolated into a log message. *)
Inductive LogArg : Type :=
| ArgVal (v : Py.val)
| ArgType (t : Py.type)
| ArgInt (z : Z).

(** A record emitted by [_LOGGER.warning(msg, args...)]. *)
Inductive LogRecord : Type :=
| WARNING (msg : string) (args : list LogArg).

(** ADS data-type tags handed to the hub. *)
Inductive PlcType : Type :=
| PLCTYPE_BOOL
| PLCTYPE_UINT
| PLCTYPE_ARR_UINT (n : nat).

Global Instance PlcType_eq_dec : EqDecision PlcType.
Proof. solve_decision. Defined.

(** Payload of a write. *)
Inductive PlcValue : Type :=
| ValBool (b : bool)
| ValInt (z : Z)
| ValArr (cells : list Z).

Global Instance PlcValue_eq_dec : EqDecision PlcValue.
Proof. solve_decision. Defined.

(** One call [write_by_name(name, value, plc_datatype)]. *)
Record Write : Type := mkWrite {
  w_name : string;
  w_value : PlcValue;
  w_type : PlcType
}.

Global Instance Write_eq_dec : EqDecision Write.
Proof. solve_decision. Defined.

(** What a command or a property read can change outside the entity: the
    warnings logged so far and the writes issued to the hub so far, both
    oldest first. *)
Record World : Type := mkWorld {
  warnings : list LogRecord;
  hub_writes : list Write
}.

Definition empty_world : World := mkWorld [] [].

(** ** The effect monad *)

Definition M (A : Type) : Type := World -> Py.outcome A * World.

Definition ret {A} (a : A) : M A := fun w => (Py.Return a, w).

Definition raise {A} (e : Py.exn) : M A := fun w => (Py.Raise e, w).

Definition bind {A B} (m : M A) (k : A -> M B) : M B :=
  fun w =>
    match m w with
    | (Py.Return a, w') => k a w'
    | (Py.Raise e, w') => (Py.Raise e, w')
    end.

(** Lifts the outcome of a pure builtin. *)
Definition lift {A} (o : Py.outcome A) : M A := fun w => (o, w).

(** [try: body except (e1, e2, ...): handler]; an exception outside
    [caught] propagates. *)
Definition try_except {A} (body : M A) (caught : list Py.exn) (handler : M A) : M A :=
  fun w =>
    match body w with
    | (Py.Return a, w') => (Py.Return a, w')
    | (Py.Raise e, w') =>
        if bool_decide (e ∈ caught) then handler w' else (Py.Raise e, w')
    end.

Global Instance M_ret : MRet M := @ret.
Global Instance M_bind : MBind M := fun A B k m => bind m k.

(** [_LOGGER.warning(msg, args...)] *)
Definition warning (msg : string) (args : list LogArg) : M unit :=
  fun w => (Py.Return tt, mkWorld (warnings w ++ [WARNING msg args]) (hub_writes w)).

(** Modelled from the spec: [hub.py] is not among the sources.  The hub's
    [write_by_name] performs the write synchronously and returns; the world
    keeps the writes in the order they were issued.  A fault of the binding
    layer is not handled by the entities and is left out of the model. *)
Definition write_by_name (name : string) (value : PlcValue) (ty : PlcType) : M unit :=
  fun w => (Py.Return tt, mkWorld (warnings w) (hub_writes w ++ [mkWrite name value ty])).

(** [d[key]] on a state mapping. *)
Definition getitem (d : gmap string Py.val) (key : string) : M Py.val :=
  match d !! key with
  | Some v => mret v
  | None => raise Py.KeyError
  end.

(** [c_uint16(v)]: ctypes stores an integer in an unsigned 16-bit cell
    without overflow checking. *)
Definition c_uint16 (v : Z) : Z := v mod 2 ^ 16.

(** The ctypes array type [c_uint16 * n] called on the unpacked [args]: an
    array of [n] cells initialised from [args];
    cells without an initialiser are zero and a surplus initialiser is an
    [IndexError]. *)
Definition c_uint16_array (n : nat) (args : list Z) : Py.outcome (list Z) :=
  if bool_decide (length args ≤ n)%nat
  then Py.Return (map c_uint16 args ++ repeat 0 (n - length args))
  else Py.Raise Py.IndexError.

(** ** The entity base class *)

(** Modelled from the spec: [const.py] is not among the sources.  Key of
    the status slot of an entity's state mapping. *)
Definition STATE_KEY_STATE : string := "state".

(** A change notification registered with the hub: the variable watched,
    its data type and the slot of the state mapping its callback fills. *)
Record Subscription : Type := mkSubscription {
  sub_var : string;
  sub_type : PlcType;
  sub_key : string
}.

Global Instance Subscription_eq_dec : EqDecision Subscription.
Proof. solve_decision. Defined.

Module AdsEntity.

(** Modelled from the spec: [entity.py] is not among the sources.  The base
    class keeps the status variable's name, the entity name and the state
    mapping, whose status slot starts out as [None]. *)
Record t : Type := mk {
  _ads_var : string;
  _attr_name : string;
  _state_dict : gmap string Py.val
}.

(** Modelled from the spec: the base class constructor. *)
Definition init (name ads_var : string) : t :=
  {| _ads_var := ads_var;
     _attr_name := name;
     _state_dict := <[STATE_KEY_STATE := Py.None_]> ∅ |}.

(** [self._state_dict[key] = value] *)
Definition setitem (key : string) (value : Py.val) (self : t) : t :=
  {| _ads_var := _ads_var self;
     _attr_name := _attr_name self;
     _state_dict := <[key := value]> (_state_dict self) |}.

(** Modelled from the spec: [async_initialize_device] subscribes to a
    variable; the callback of the subscription stores each notified value
    in the slot [state_key]. *)
Definition async_initialize_device
    (ads_var : string) (plctype : PlcType) (state_key : string) : Subscription :=
  mkSubscription ads_var plctype state_key.

(** Modelled from the spec: the callback of subscription [s] receiving
    [value] updates the slot of [s]. *)
Definition update (s : Subscription) (value : Py.val) (self : t) : t :=
  setitem (sub_key s) value self.

End AdsEntity.

(** ** light.py *)

(** The colour modes of the light platform that this integration selects. *)
Inductive ColorMode : Type :=
| ONOFF
| BRIGHTNESS
| RGBW.

Global Instance ColorMode_eq_dec : EqDecision ColorMode.
Proof. solve_decision. Defined.

Global Instance ColorMode_countable : Countable ColorMode.
Proof.
  refine (inj_countable'
    (fun m => match m with ONOFF => 0%nat | BRIGHTNESS => 1%nat | RGBW => 2%nat end)
    (fun n => match n with 0%nat => ONOFF | 1%nat => BRIGHTNESS | _ => RGBW end) _).
  intros []; reflexivity.
Defined.

(** Keyword arguments of a turn-on or turn-off service call.  The platform
    declares [ATTR_BRIGHTNESS] as an integer and [ATTR_RGBW_COLOR] as a
    sequence of integers; [kwargs.get(key)] is [None] for an absent key. *)
Record Kwargs : Type := mkKwargs {
  ATTR_BRIGHTNESS : option Z;
  ATTR_RGBW_COLOR : option (list Z)
}.

Module Light.

Definition STATE_KEY_BRIGHTNESS : string := "brightness".
Definition STATE_KEY_RGBW_COLOR : string := "rgbw_color".

Record AdsLight : Type := mkAdsLight {
  entity : AdsEntity.t;
  _ads_var_brightness : option string;
  _ads_var_rgbw_color : option string;
  _attr_color_mode : ColorMode;
  _attr_supported_color_modes : gset ColorMode
}.

Definition _ads_var (self : AdsLight) : string := AdsEntity._ads_var (entity self).

Definition _state_dict (self : AdsLight) : gmap string Py.val :=
  AdsEntity._state_dict (entity self).

(** [AdsLight.__init__]; the hub argument is the world's hub. *)
Definition init
    (ads_var_enable : string)
    (ads_var_brightness ads_var_rgbw_color : option string)
    (name : string) : AdsLight :=
  let base := AdsEntity.init name ads_var_enable in
  let base := AdsEntity.setitem STATE_KEY_BRIGHTNESS Py.None_ base in
  let base := AdsEntity.setitem STATE_KEY_RGBW_COLOR Py.None_ base in
  let mode :=
    if ads_var_rgbw_color is Some _ then RGBW
    else if ads_var_brightness is Some _ then BRIGHTNESS
    else ONOFF in
  {| entity := base;
     _ads_var_brightness := ads_var_brightness;
     _ads_var_rgbw_color := ads_var_rgbw_color;
     _attr_color_mode := mode;
     _attr_supported_color_modes := {[ mode ]} |}.

(** [async_added_to_hass]: the subscriptions registered, in order. *)
Definition async_added_to_hass (self : AdsLight) : list Subscription :=
  [AdsEntity.async_initialize_device (_ads_var self) PLCTYPE_BOOL STATE_KEY_STATE]
  ++ (if _ads_var_brightness self is Some var
      then [AdsEntity.async_initialize_device var PLCTYPE_UINT STATE_KEY_BRIGHTNESS]
      else [])
  ++ (if _ads_var_rgbw_color self is Some var
      then [AdsEntity.async_initialize_device var (PLCTYPE_ARR_UINT 4) STATE_KEY_RGBW_COLOR]
      else []).

(** Modelled from the spec: a notification reaches the light through the
    callback of one of its own subscriptions; any other subscription belongs
    to another entity. *)
Definition notify (self : AdsLight) (ev : Subscription * Py.val) : AdsLight :=
  if bool_decide (ev.1 ∈ async_added_to_hass self)
  then {| entity := AdsEntity.update ev.1 ev.2 (entity self);
          _ads_var_brightness := _ads_var_brightness self;
          _ads_var_rgbw_color := _ads_var_rgbw_color self;
          _attr_color_mode := _attr_color_mode self;
          _attr_supported_color_modes := _attr_supported_color_modes self |}
  else self.

(** The light after a run of notifications, oldest first. *)
Definition notify_all (self : AdsLight) (evs : list (Subscription * Py.val)) : AdsLight :=
  foldl notify self evs.

(** Property [brightness]. *)
Definition brightness (self : AdsLight) : M Py.val :=
  getitem (_state_dict self) STATE_KEY_BRIGHTNESS.

(** Property [is_on]. *)
Definition is_on (self : AdsLight) : M Py.val :=
  getitem (_state_dict self) STATE_KEY_STATE.

(** The local helper [clamp] of [rgbw_color]. *)
Definition clamp (v : Z) : Z := Z.max 0 (Z.min 255 v).

(** [0 <= v <= 255] *)
Definition in_range (v : Z) : bool := (0 <=? v) && (v <=? 255).

Section Reads.

Variable int_of_str : string -> option Z.

(** The body of the [try] block: the four coercions, left to right. *)
Definition coerce4 (items : list Py.val) : M (Z * Z * Z * Z) :=
  x0 ← lift (Py.item items 0); r ← lift (Py.int int_of_str x0);
  x1 ← lift (Py.item items 1); g ← lift (Py.int int_of_str x1);
  x2 ← lift (Py.item items 2); b ← lift (Py.int int_of_str x2);
  x3 ← lift (Py.item items 3); w ← lift (Py.int int_of_str x3);
  mret (r, g, b, w).

(** The branch taken once [rgbw] is a tuple or list of length four. *)
Definition decode4 (rgbw : Py.val) (items : list Py.val) : M (option (Z * Z * Z * Z)) :=
  coerced ← try_except
    (rgbw4 ← coerce4 items; mret (Some rgbw4))
    [Py.ValueError; Py.TypeError]
    (warning "rgbw_color has non-integer values: %s" [ArgVal rgbw];; mret None);
  match coerced with
  | None => mret None
  | Some (r, g, b, w) =>
      (if negb (forallb in_range [r; g; b; w])
       then warning "rgbw_color values out of range 0-255: R=%d, G=%d, B=%d, W=%d"
              [ArgInt r; ArgInt g; ArgInt b; ArgInt w]
       else mret tt);;
      mret (Some (clamp r, clamp g, clamp b, clamp w))
  end.

(** Property [rgbw_color]. *)
Definition rgbw_color (self : AdsLight) : M (option (Z * Z * Z * Z)) :=
  rgbw ← getitem (_state_dict self) STATE_KEY_RGBW_COLOR;
  match rgbw with
  | Py.None_ => mret None
  | Py.Tuple items | Py.List items =>
      if bool_decide (length items = 4%nat)
      then decode4 rgbw items
      else
        warning "Unexpected rgbw_color value (expected tuple/list of 4): %s"
          [ArgType (Py.type_of rgbw)];;
        mret None
  | _ =>
      warning "Unexpected rgbw_color value (expected tuple/list of 4): %s"
        [ArgType (Py.type_of rgbw)];;
      mret None
  end.

End Reads.

(** [turn_on] *)
Definition turn_on (self : AdsLight) (kwargs : Kwargs) : M unit :=
  write_by_name (_ads_var self) (ValBool true) PLCTYPE_BOOL;;
  let brightness := ATTR_BRIGHTNESS kwargs in
  match _ads_var_brightness self, brightness with
  | Some var, Some value => write_by_name var (ValInt value) PLCTYPE_UINT
  | _, _ => mret tt
  end;;
  let rgbw_color := ATTR_RGBW_COLOR kwargs in
  match _ads_var_rgbw_color self, rgbw_color with
  | Some var, Some color =>
      if bool_decide (length color = 4%nat)
      then
        let arr_type := PLCTYPE_ARR_UINT 4 in
        arr ← lift (c_uint16_array 4 color);
        write_by_name var (ValArr arr) arr_type
      else mret tt
  | _, _ => mret tt
  end.

(** [turn_off] *)
Definition turn_off (self : AdsLight) (kwargs : Kwargs) : M unit :=
  write_by_name (_ads_var self) (ValBool false) PLCTYPE_BOOL.

End Light.

(** ** switch.py *)

Module Switch.

Record AdsSwitch : Type := mkAdsSwitch {
  entity : AdsEntity.t;
  _ads_var_turn_on : option string;
  _ads_var_turn_off : option string
}.

Definition _ads_var (self : AdsSwitch) : string := AdsEntity._ads_var (entity self).

Definition _state_dict (self : AdsSwitch) : gmap string Py.val :=
  AdsEntity._state_dict (entity self).

(** [AdsSwitch.__init__]; the hub argument is the world's hub. *)
Definition init
    (ads_var_is_on : string)
    (ads_var_turn_on ads_var_turn_off : option string)
    (name : string) : AdsSwitch :=
  {| entity := AdsEntity.init name ads_var_is_on;
     _ads_var_turn_on := ads_var_turn_on;
     _ads_var_turn_off := ads_var_turn_off |}.

(** [async_added_to_hass] *)
Definition async_added_to_hass (self : AdsSwitch) : list Subscription :=
  [AdsEntity.async_initialize_device (_ads_var self) PLCTYPE_BOOL STATE_KEY_STATE].

(** Property [is_on]. *)
Definition is_on (self : AdsSwitch) : M Py.val :=
  getitem (_state_dict self) STATE_KEY_STATE.

(** [turn_on] *)
Definition turn_on (self : AdsSwitch) (kwargs : Kwargs) : M unit :=
  match _ads_var_turn_on self with
  | Some var => write_by_name var (ValBool true) PLCTYPE_BOOL
  | None => write_by_name (_ads_var self) (ValBool true) PLCTYPE_BOOL
  end.

(** [turn_off] *)
Definition turn_off (self : AdsSwitch) (kwargs : Kwargs) : M unit :=
  match _ads_var_turn_off self with
  | Some var => write_by_name var (ValBool true) PLCTYPE_BOOL
  | None => write_by_name (_ads_var self) (ValBool false) PLCTYPE_BOOL
  end.

End Switch.

(** ** Platform set-up *)

(** The hub object kept under [hass.data]; its writes live in the world. *)
Inductive AdsHub : Type :=
| ads_hub.

(** [d[key]] on any mapping keyed by strings. *)
Definition dict_getitem {A} (d : gmap string A) (key : string) : M A :=
  match d !! key with
  | Some v => mret v
  | None => raise Py.KeyError
  end.

Module Platform.

Section Keys.

(** [DATA_ADS] and [CONF_ADS_VAR] come from [const.py], which is not among
    the sources, and [CONF_NAME] from the host platform. *)
Variables DATA_ADS CONF_ADS_VAR CONF_NAME : string.

Definition CONF_ADS_VAR_BRIGHTNESS : string := "adsvar_brightness".
Definition CONF_ADS_VAR_RGBW_COLOR : string := "adsvar_rgbw_color".
Definition CONF_ADS_VAR_TURN_ON : string := "adsvar_turn_on".
Definition CONF_ADS_VAR_TURN_OFF : string := "adsvar_turn_off".

(** [setup_platform] of light.py; the result is the list handed to
    [add_entities]. *)
Definition light_setup_platform
    (hass_data : gmap string AdsHub) (config : gmap string string)
    : M (list Light.AdsLight) :=
  hub ← dict_getitem hass_data DATA_ADS;
  ads_var_enable ← dict_getitem config CONF_ADS_VAR;
  let ads_var_brightness := config !! CONF_ADS_VAR_BRIGHTNESS in
  let ads_var_rgbw_color := config !! CONF_ADS_VAR_RGBW_COLOR in
  name ← dict_getitem config CONF_NAME;
  mret [Light.init ads_var_enable ads_var_brightness ads_var_rgbw_color name].

(** [setup_platform] of switch.py; the result is the list handed to
    [add_entities]. *)
Definition switch_setup_platform
    (hass_data : gmap string AdsHub) (config : gmap string string)
    : M (list Switch.AdsSwitch) :=
  hub ← dict_getitem hass_data DATA_ADS;
  name ← dict_getitem config CONF_NAME;
  ads_var_is_on ← dict_getitem config CONF_ADS_VAR;
  let ads_var_turn_on := config !! CONF_ADS_VAR_TURN_ON in
  let ads_var_turn_off := config !! CONF_ADS_VAR_TURN_OFF in
  mret [Switch.init ads_var_is_on ads_var_turn_on ads_var_turn_off name].

End Keys.

End Platform.

(** ** Switch notifications and command sequences *)

(** Modelled from the spec: a notification reaches the switch through the
    callback of one of its own subscriptions. *)
Definition switch_notify
    (self : Switch.AdsSwitch) (ev : Subscription * Py.val) : Switch.AdsSwitch :=
  if bool_decide (ev.1 ∈ Switch.async_added_to_hass self)
  then {| Switch.entity := AdsEntity.update ev.1 ev.2 (Switch.entity self);
          Switch._ads_var_turn_on := Switch._ads_var_turn_on self;
          Switch._ads_var_turn_off := Switch._ads_var_turn_off self |}
  else self.

Definition switch_notify_all
    (self : Switch.AdsSwitch) (evs : list (Subscription * Py.val)) : Switch.AdsSwitch :=
  foldl switch_notify self evs.

(** A service call on an entity. *)
Inductive Command : Type :=
| TurnOn (kwargs : Kwargs)
| TurnOff (kwargs : Kwargs).

(** The state a command asks for. *)
Definition wants_on (c : Command) : bool :=
  match c with TurnOn _ => true | TurnOff _ => false end.

Definition light_call (self : Light.AdsLight) (c : Command) : M unit :=
  match c with
  | TurnOn kwargs => Light.turn_on self kwargs
  | TurnOff kwargs => Light.turn_off self kwargs
  end.

Definition switch_call (self : Switch.AdsSwitch) (c : Command) : M unit :=
  match c with
  | TurnOn kwargs => Switch.turn_on self kwargs
  | TurnOff kwargs => Switch.turn_off self kwargs
  end.

(** Runs service calls one after the other; the first exception ends the
    run. *)
Fixpoint calls {E} (call : E → Command → M unit) (self : E) (cs : list Command) : M unit :=
  match cs with
  | [] => mret tt
  | c :: cs => call self c;; calls call self cs
  end.

(** ** Vocabulary of the statements *)

(** A sequence of integers as the hub would store it: a list or a tuple. *)
Definition int_seq (as_list : bool) (vs : list Z) : Py.val :=
  if as_list then Py.List (Py.Int <$> vs) else Py.Tuple (Py.Int <$> vs).

(** Clamping to the closed interval from [lo] to [hi], said by cases. *)
Definition clamp_to (lo hi v : Z) : Z :=
  if v <? lo then lo else if hi <? v then hi else v.

(** The value most recently notified for slot [key] through one of the
    subscriptions [subs], or [None] when there was no such notification.
    The events are listed oldest first. *)
Definition last_notified
    (subs : list Subscription) (key : string)
    (evs : list (Subscription * Py.val)) : Py.val :=
  default Py.None_
    (last (omap (fun ev : Subscription * Py.val =>
                   if bool_decide (ev.1 ∈ subs ∧ sub_key ev.1 = key)
                   then Some ev.2 else None) evs)).

(** The three kinds of write a light issues. *)
Definition status_write (self : Light.AdsLight) (b : bool) : Write :=
  mkWrite (Light._ads_var self) (ValBool b) PLCTYPE_BOOL.

Definition brightness_write (var : string) (value : Z) : Write :=
  mkWrite var (ValInt value) PLCTYPE_UINT.

Definition color_write (var : string) (color : list Z) : Write :=
  mkWrite var (ValArr (c_uint16 <$> color)) (PLCTYPE_ARR_UINT 4).

(** Position of a write in the turn-on sequence, read off its data type. *)
Definition stage (wr : Write) : nat :=
  match w_type wr with
  | PLCTYPE_BOOL => 0
  | PLCTYPE_UINT => 1
  | PLCTYPE_ARR_UINT _ => 2
  end.

(** The brightness write a turn-on owes, if any. *)
Definition due_brightness (self : Light.AdsLight) (kwargs : Kwargs) : list Write :=
  match Light._ads_var_brightness self, ATTR_BRIGHTNESS kwargs with
  | Some var, Some value => [brightness_write var value]
  | _, _ => []
  end.

(** The colour write a turn-on owes, if any. *)
Definition due_color (self : Light.AdsLight) (kwargs : Kwargs) : list Write :=
  match Light._ads_var_rgbw_color self, ATTR_RGBW_COLOR kwargs with
  | Some var, Some color =>
      if bool_decide (length color = 4%nat) then [color_write var color] else []
  | _, _ => []
  end.

(** Sample entities for running the model: a colour light whose colour
    slot was notified [sample], a dimmable light notified a brightness, and a
    switch with a turn-off variable of its own. *)
Definition color_light (sample : Py.val) : Light.AdsLight :=
  Light.notify_all (Light.init "GVL.bLamp" None (Some "GVL.aColor") "ADS Light")
    [(mkSubscription "GVL.aColor" (PLCTYPE_ARR_UINT 4) Light.STATE_KEY_RGBW_COLOR,
      sample)].

Definition dimmable_light (level : Py.val) : Light.AdsLight :=
  Light.notify_all (Light.init "GVL.bLamp" (Some "GVL.nLevel") None "ADS Light")
    [(mkSubscription "GVL.nLevel" PLCTYPE_UINT Light.STATE_KEY_BRIGHTNESS, level)].

Definition pulse_switch : Switch.AdsSwitch :=
  Switch.init "GVL.bOn" None (Some "GVL.bOffCmd") "ADS Switch".

(** A literal parser that accepts no string, for samples without strings. *)
Definition no_literal (s : string) : option Z := None.

(** The writes one service call on a light owes. *)
Definition light_call_writes (self : Light.AdsLight) (c : Command) : list Write :=
  match c with
  | TurnOn kwargs =>
      status_write self true :: due_brightness self kwargs ++ due_color self kwargs
  | TurnOff _ => [status_write self false]
  end.

(** The write one service call on a switch owes. *)
Definition switch_call_write (self : Switch.AdsSwitch) (c : Command) : Write :=
  match c with
  | TurnOn _ =>
      mkWrite (default (Switch._ads_var self) (Switch._ads_var_turn_on self))
        (ValBool true) PLCTYPE_BOOL
  | TurnOff _ =>
      if Switch._ads_var_turn_off self is Some var
      then mkWrite var (ValBool true) PLCTYPE_BOOL
      else mkWrite (Switch._ads_var self) (ValBool false) PLCTYPE_BOOL
  end.

(** ** Proof automation *)

(** Unfolds the monad down to functions on worlds. *)
Ltac run_monad :=
  unfold mbind, M_bind, bind, mret, M_ret, ret, raise, lift, try_except,
    warning, getitem in *.

(** Closes sortedness goals over explicit lists of writes. *)
Ltac by_stage :=
  repeat first
    [ apply SSorted_nil | apply SSorted_cons
    | apply List.Forall_nil | apply List.Forall_cons
    | (unfold stage; simpl; lia) ].

(** Closes goals classifying each write of an explicit list. *)
Ltac one_of_three :=
  repeat first
    [ apply List.Forall_nil
    | apply List.Forall_cons; [naive_solver |] ].

(** ** Construction *)

(** C4: the colour mode of a freshly constructed light depends only on
    which optional variables were given: RGBW as soon as a colour variable
    is given (whatever the brightness variable), otherwise BRIGHTNESS when a
    brightness variable is given, otherwise ONOFF; the supported modes are
    that single mode. *)
Theorem init_color_mode (enable name color bright : string) (bri : option string) :
  let mode (l : Light.AdsLight) :=
    (Light._attr_color_mode l, Light._attr_supported_color_modes l) in
  mode (Light.init enable bri (Some color) name) = (RGBW, {[ RGBW ]})
  ∧ mode (Light.init enable (Some bright) None name) = (BRIGHTNESS, {[ BRIGHTNESS ]})
  ∧ mode (Light.init enable None None name) = (ONOFF, {[ ONOFF ]}).
Proof. by destruct bri. Qed.

(** ** Commands *)

(** C8: turning a light off returns normally and issues exactly one write,
    [False] to the status variable, whatever the keyword arguments and the
    configured variables; nothing is logged and every write issued targets
    the status variable. *)
Theorem light_turn_off_writes (self : Light.AdsLight) (kwargs : Kwargs) (w : World) :
  ∃ issued,
    Light.turn_off self kwargs w
      = (Py.Return tt, mkWorld (warnings w) (hub_writes w ++ issued))
    ∧ issued = [status_write self false]
    ∧ Forall (fun wr => w_name wr = Light._ads_var self ∧ w_type wr = PLCTYPE_BOOL) issued.
Proof.
  exists [status_write self false].
  split_and!; [done | done |].
  by apply Forall_singleton.
Qed.

(** C7: turning a switch off issues exactly one write.  With a turn-off
    variable configured it is [True] to that variable, and when that variable
    is distinct from the status variable no write reaches the status
    variable; with none configured it is [False] to the status variable. *)
Theorem switch_turn_off_writes
    (is_on name off : string) (on : option string) (kwargs : Kwargs) (w : World) :
  (∃ issued,
      Switch.turn_off (Switch.init is_on on (Some off) name) kwargs w
        = (Py.Return tt, mkWorld (warnings w) (hub_writes w ++ issued))
      ∧ issued = [mkWrite off (ValBool true) PLCTYPE_BOOL]
      ∧ (off ≠ is_on → Forall (fun wr => w_name wr ≠ is_on) issued))
  ∧ Switch.turn_off (Switch.init is_on on None name) kwargs w
      = (Py.Return tt,
         mkWorld (warnings w) (hub_writes w ++ [mkWrite is_on (ValBool false) PLCTYPE_BOOL])).
Proof.
  split; [| done].
  eexists; split_and!; [done | done |].
  intros Hne. by apply Forall_singleton.
Qed.

(** The array built from four initialisers holds their 16-bit images. *)
Lemma c_uint16_array_4 (color : list Z) :
  length color = 4%nat →
  c_uint16_array 4 color = Py.Return (c_uint16 <$> color).
Proof.
  intros Hlen. unfold c_uint16_array.
  rewrite bool_decide_eq_true_2 by lia.
  rewrite Hlen. simpl. by rewrite app_nil_r.
Qed.

(** Cells already within 16 bits are stored as they are. *)
Lemma c_uint16_id (color : list Z) :
  Forall (fun v => 0 ≤ v < 2 ^ 16) color → c_uint16 <$> color = color.
Proof.
  induction 1 as [| v vs Hv _ IH]; [done |].
  rewrite fmap_cons, IH. unfold c_uint16. by rewrite Z.mod_small.
Qed.

(** Closed form of a turn-on: it returns, logs nothing and appends the
    status write, then the brightness write, then the colour write. *)
Lemma light_turn_on_run (self : Light.AdsLight) (kwargs : Kwargs) (w : World) :
  Light.turn_on self kwargs w
    = (Py.Return tt,
       mkWorld (warnings w)
         (hub_writes w ++ status_write self true
                          :: due_brightness self kwargs ++ due_color self kwargs)).
Proof.
  destruct w as [log ws].
  unfold Light.turn_on, due_brightness, due_color, mbind, M_bind, bind, mret, M_ret, ret.
  destruct (Light._ads_var_brightness self) as [bvar |],
           (ATTR_BRIGHTNESS kwargs) as [value |],
           (Light._ads_var_rgbw_color self) as [cvar |],
           (ATTR_RGBW_COLOR kwargs) as [color |];
    simpl; try case_bool_decide as Hlen; simpl;
    unfold lift; rewrite ?(c_uint16_array_4 _ Hlen); simpl;
    unfold write_by_name; simpl;
    by rewrite <- ?app_assoc.
Qed.

(** The brightness write is owed exactly when a brightness variable is
    configured and a brightness value is supplied. *)
Lemma due_brightness_spec (self : Light.AdsLight) (kwargs : Kwargs) :
  (∀ var value,
      Light._ads_var_brightness self = Some var →
      ATTR_BRIGHTNESS kwargs = Some value →
      due_brightness self kwargs = [brightness_write var value])
  ∧ (Light._ads_var_brightness self = None ∨ ATTR_BRIGHTNESS kwargs = None →
      due_brightness self kwargs = []).
Proof.
  unfold due_brightness. split.
  - by intros var value -> ->.
  - intros [-> | ->]; [done |]. by destruct (Light._ads_var_brightness self).
Qed.

(** The colour write is owed exactly when a colour variable is configured
    and a colour of four elements is supplied. *)
Lemma due_color_spec (self : Light.AdsLight) (kwargs : Kwargs) :
  (∀ var color,
      Light._ads_var_rgbw_color self = Some var →
      ATTR_RGBW_COLOR kwargs = Some color →
      length color = 4%nat →
      due_color self kwargs = [color_write var color])
  ∧ (Light._ads_var_rgbw_color self = None
     ∨ ATTR_RGBW_COLOR kwargs = None
     ∨ (∃ color, ATTR_RGBW_COLOR kwargs = Some color ∧ length color ≠ 4%nat) →
      due_color self kwargs = []).
Proof.
  unfold due_color. split.
  - intros var color -> -> Hlen. by rewrite bool_decide_eq_true_2.
  - intros [-> | [-> | (color & -> & Hlen)]]; [done | |].
    + by destruct (Light._ads_var_rgbw_color self).
    + rewrite bool_decide_eq_false_2 by done.
      by destruct (Light._ads_var_rgbw_color self).
Qed.

(** C5: a turn-on returns normally and the writes it issues are, as a
    collection: the write of [True] to the status variable, always; the write
    of the supplied brightness to the brightness variable exactly when that
    variable is configured and a brightness is supplied, whatever the colour
    mode; the write of the supplied colour, packed into four 16-bit cells, to
    the colour variable exactly when that variable is configured and a colour
    of exactly four elements is supplied.  With neither optional variable
    configured the status write is the only one; with a brightness variable
    and a brightness value and no colour there are exactly two writes. *)
Theorem light_turn_on_writes (self : Light.AdsLight) (kwargs : Kwargs) (w : World) :
  ∃ issued bw cw,
    Light.turn_on self kwargs w
      = (Py.Return tt, mkWorld (warnings w) (hub_writes w ++ issued))
    ∧ issued ≡ₚ status_write self true :: bw ++ cw
    ∧ (∀ var value,
          Light._ads_var_brightness self = Some var →
          ATTR_BRIGHTNESS kwargs = Some value →
          bw = [brightness_write var value])
    ∧ (Light._ads_var_brightness self = None ∨ ATTR_BRIGHTNESS kwargs = None →
          bw = [])
    ∧ (∀ var color,
          Light._ads_var_rgbw_color self = Some var →
          ATTR_RGBW_COLOR kwargs = Some color →
          length color = 4%nat →
          cw = [color_write var color])
    ∧ (Light._ads_var_rgbw_color self = None
       ∨ ATTR_RGBW_COLOR kwargs = None
       ∨ (∃ color, ATTR_RGBW_COLOR kwargs = Some color ∧ length color ≠ 4%nat) →
          cw = [])
    ∧ (Light._ads_var_brightness self = None →
       Light._ads_var_rgbw_color self = None →
          issued = [status_write self true])
    ∧ (∀ var value,
          Light._ads_var_brightness self = Some var →
          ATTR_BRIGHTNESS kwargs = Some value →
          ATTR_RGBW_COLOR kwargs = None →
          issued ≡ₚ [status_write self true; brightness_write var value]
          ∧ length issued = 2%nat).
Proof.
  destruct (due_brightness_spec self kwargs) as [Hb1 Hb0].
  destruct (due_color_spec self kwargs) as [Hc1 Hc0].
  exists (status_write self true :: due_brightness self kwargs ++ due_color self kwargs),
    (due_brightness self kwargs), (due_color self kwargs).
  split_and!; try done.
  - apply light_turn_on_run.
  - intros Hb Hc. by rewrite Hb0, Hc0 by auto.
  - intros var value Hb Hv Hc.
    rewrite (Hb1 _ _ Hb Hv), Hc0 by auto. done.
Qed.

(** C6: when a colour variable is configured and the colour supplied does
    not have exactly four elements, a turn-on returns normally, logs nothing,
    still issues the write of [True] to the status variable, and issues no
    write that carries an array. *)
Theorem light_turn_on_drops_short_color
    (self : Light.AdsLight) (kwargs : Kwargs) (w : World)
    (var : string) (color : list Z) :
  Light._ads_var_rgbw_color self = Some var →
  ATTR_RGBW_COLOR kwargs = Some color →
  length color ≠ 4%nat →
  ∃ issued,
    Light.turn_on self kwargs w
      = (Py.Return tt, mkWorld (warnings w) (hub_writes w ++ issued))
    ∧ status_write self true ∈ issued
    ∧ Forall (fun wr => w_type wr ≠ PLCTYPE_ARR_UINT 4
                        ∧ ∀ cells, w_value wr ≠ ValArr cells) issued.
Proof.
  intros Hvar Hcol Hlen.
  destruct (due_color_spec self kwargs) as [_ Hc0].
  eexists. split; [apply light_turn_on_run |].
  rewrite Hc0 by eauto. rewrite app_nil_r.
  split; [set_solver |].
  apply Forall_cons. split; [done |].
  unfold due_brightness.
  destruct (Light._ads_var_brightness self), (ATTR_BRIGHTNESS kwargs);
    repeat constructor; done.
Qed.

(** C10: the writes of a turn-on are issued in a fixed order.  The write of
    [True] to the status variable comes first; the writes issued are sorted by
    kind, status before brightness before colour; and each of them is the
    status write, a brightness write to the brightness variable or a colour
    write to the colour variable. *)
Theorem light_turn_on_order (self : Light.AdsLight) (kwargs : Kwargs) (w : World) :
  ∃ issued,
    Light.turn_on self kwargs w
      = (Py.Return tt, mkWorld (warnings w) (hub_writes w ++ issued))
    ∧ head issued = Some (status_write self true)
    ∧ StronglySorted (fun a b => (stage a < stage b)%nat) issued
    ∧ Forall (fun wr =>
        (wr = status_write self true ∧ stage wr = 0%nat)
        ∨ (∃ var value, Light._ads_var_brightness self = Some var
                        ∧ wr = brightness_write var value ∧ stage wr = 1%nat)
        ∨ (∃ var color, Light._ads_var_rgbw_color self = Some var
                        ∧ wr = color_write var color ∧ stage wr = 2%nat)) issued.
Proof.
  eexists. split; [apply light_turn_on_run |].
  unfold due_brightness, due_color.
  destruct (Light._ads_var_brightness self) as [bvar |],
           (ATTR_BRIGHTNESS kwargs) as [value |],
           (Light._ads_var_rgbw_color self) as [cvar |],
           (ATTR_RGBW_COLOR kwargs) as [color |];
    simpl; try case_bool_decide; simpl.
  all: split; [done |].
  all: split; [by_stage | one_of_three].
Qed.

(** ** Reads *)

Lemma clamp_clamp_to (v : Z) : Light.clamp v = clamp_to 0 255 v.
Proof.
  unfold Light.clamp, clamp_to.
  destruct (Z.ltb_spec v 0), (Z.ltb_spec 255 v); lia.
Qed.

Lemma clamp_in_range (v : Z) : 0 ≤ v ≤ 255 → Light.clamp v = v.
Proof. unfold Light.clamp. lia. Qed.

Lemma in_range_spec (v : Z) : Light.in_range v = true ↔ 0 ≤ v ≤ 255.
Proof. unfold Light.in_range. rewrite andb_true_iff, !Z.leb_le. done. Qed.

Lemma all_in_range_spec (r g b w : Z) :
  forallb Light.in_range [r; g; b; w] = true
  ↔ 0 ≤ r ≤ 255 ∧ 0 ≤ g ≤ 255 ∧ 0 ≤ b ≤ 255 ∧ 0 ≤ w ≤ 255.
Proof.
  simpl. rewrite !andb_true_iff, !in_range_spec. tauto.
Qed.

Section ColorRead.

Variable int_of_str : string -> option Z.

(** A stored tuple or list of four items is decoded by [decode4]. *)
Lemma rgbw_color_four
    (self : Light.AdsLight) (rgbw : Py.val) (items : list Py.val) (world : World) :
  Light._state_dict self !! Light.STATE_KEY_RGBW_COLOR = Some rgbw →
  rgbw = Py.Tuple items ∨ rgbw = Py.List items →
  length items = 4%nat →
  Light.rgbw_color int_of_str self world = Light.decode4 int_of_str rgbw items world.
Proof.
  intros Hslot Hseq Hlen. unfold Light.rgbw_color. run_monad.
  rewrite Hslot. destruct Hseq as [-> | ->]; simpl; by rewrite bool_decide_eq_true_2.
Qed.

(** Four stored integers come back clamped, with one warning when some
    channel is out of range and none otherwise. *)
Lemma rgbw_color_ints
    (self : Light.AdsLight) (as_list : bool) (r g b w : Z) (world : World) :
  Light._state_dict self !! Light.STATE_KEY_RGBW_COLOR
    = Some (int_seq as_list [r; g; b; w]) →
  Light.rgbw_color int_of_str self world
    = (Py.Return (Some (Light.clamp r, Light.clamp g, Light.clamp b, Light.clamp w)),
       if forallb Light.in_range [r; g; b; w] then world
       else mkWorld
              (warnings world
               ++ [WARNING "rgbw_color values out of range 0-255: R=%d, G=%d, B=%d, W=%d"
                     [ArgInt r; ArgInt g; ArgInt b; ArgInt w]])
              (hub_writes world)).
Proof.
  intros Hslot.
  rewrite (rgbw_color_four self _ (Py.Int <$> [r; g; b; w]) world Hslot);
    [| destruct as_list; auto | done].
  unfold Light.decode4, Light.coerce4. run_monad. simpl.
  match goal with |- context [negb ?c] => by destruct c end.
Qed.

End ColorRead.

(** C2: a stored sequence (list or tuple) of four integers, each between 0
    and 255, is read back as exactly those four values in order; the read
    returns normally and logs nothing. *)
Theorem rgbw_color_in_range_unchanged
    (int_of_str : string -> option Z)
    (self : Light.AdsLight) (as_list : bool) (r g b w : Z) (world : World) :
  Light._state_dict self !! Light.STATE_KEY_RGBW_COLOR
    = Some (int_seq as_list [r; g; b; w]) →
  0 ≤ r ≤ 255 → 0 ≤ g ≤ 255 → 0 ≤ b ≤ 255 → 0 ≤ w ≤ 255 →
  Light.rgbw_color int_of_str self world = (Py.Return (Some (r, g, b, w)), world).
Proof.
  intros Hslot Hr Hg Hb Hw.
  rewrite (rgbw_color_ints int_of_str self as_list r g b w world Hslot).
  rewrite (proj2 (all_in_range_spec r g b w)) by done.
  by rewrite !clamp_in_range.
Qed.

(** C3: a stored sequence (list or tuple) of four integers of which at
    least one lies outside 0..255 is not discarded: the read returns the four
    values clamped one by one to 0..255 and logs exactly one warning, which
    names the four raw values. *)
Theorem rgbw_color_out_of_range_clamped
    (int_of_str : string -> option Z)
    (self : Light.AdsLight) (as_list : bool) (r g b w : Z) (world : World) :
  Light._state_dict self !! Light.STATE_KEY_RGBW_COLOR
    = Some (int_seq as_list [r; g; b; w]) →
  ¬ (0 ≤ r ≤ 255 ∧ 0 ≤ g ≤ 255 ∧ 0 ≤ b ≤ 255 ∧ 0 ≤ w ≤ 255) →
  Light.rgbw_color int_of_str self world
    = (Py.Return (Some (clamp_to 0 255 r, clamp_to 0 255 g,
                        clamp_to 0 255 b, clamp_to 0 255 w)),
       mkWorld
         (warnings world
          ++ [WARNING "rgbw_color values out of range 0-255: R=%d, G=%d, B=%d, W=%d"
                [ArgInt r; ArgInt g; ArgInt b; ArgInt w]])
         (hub_writes world)).
Proof.
  intros Hslot Hout.
  rewrite (rgbw_color_ints int_of_str self as_list r g b w world Hslot).
  rewrite !clamp_clamp_to.
  destruct (forallb Light.in_range [r; g; b; w]) eqn:Hall; [| done].
  by apply all_in_range_spec in Hall.
Qed.

(** ** Notifications *)

(** A notification leaves the light's subscriptions as they are. *)
Lemma notify_subscriptions (self : Light.AdsLight) (ev : Subscription * Py.val) :
  Light.async_added_to_hass (Light.notify self ev) = Light.async_added_to_hass self.
Proof. unfold Light.notify. by case_bool_decide. Qed.

Lemma notify_all_subscriptions
    (self : Light.AdsLight) (evs : list (Subscription * Py.val)) :
  Light.async_added_to_hass (Light.notify_all self evs) = Light.async_added_to_hass self.
Proof.
  revert self. induction evs as [| ev evs IH]; intros self; [done |].
  simpl. unfold Light.notify_all in IH. by rewrite IH, notify_subscriptions.
Qed.

(** A notification fills the slot of its subscription and no other. *)
Lemma notify_lookup (self : Light.AdsLight) (ev : Subscription * Py.val) (key : string) :
  Light._state_dict (Light.notify self ev) !! key
    = if bool_decide (ev.1 ∈ Light.async_added_to_hass self ∧ sub_key ev.1 = key)
      then Some ev.2
      else Light._state_dict self !! key.
Proof.
  unfold Light.notify.
  destruct (decide (ev.1 ∈ Light.async_added_to_hass self)) as [Hin | Hout].
  - rewrite (bool_decide_eq_true_2 _ Hin).
    unfold Light._state_dict; simpl.
    destruct (decide (sub_key ev.1 = key)) as [<- | Hne].
    + rewrite bool_decide_eq_true_2 by done. apply lookup_insert_eq.
    + rewrite bool_decide_eq_false_2 by tauto. by apply lookup_insert_ne.
  - rewrite (bool_decide_eq_false_2 _ Hout).
    by rewrite bool_decide_eq_false_2 by tauto.
Qed.

(** After a run of notifications a slot holds the value last notified for
    it, or what it held before when none was. *)
Lemma notify_all_lookup
    (self : Light.AdsLight) (evs : list (Subscription * Py.val)) (key : string) :
  Light._state_dict (Light.notify_all self evs) !! key
    = match last (omap (fun ev : Subscription * Py.val =>
                          if bool_decide (ev.1 ∈ Light.async_added_to_hass self
                                          ∧ sub_key ev.1 = key)
                          then Some ev.2 else None) evs) with
      | Some v => Some v
      | None => Light._state_dict self !! key
      end.
Proof.
  induction evs as [| ev evs IH] using rev_ind; [done |].
  unfold Light.notify_all in *. rewrite foldl_app. simpl.
  rewrite notify_lookup, IH, omap_app. simpl.
  fold (Light.notify_all self evs). rewrite notify_all_subscriptions.
  case_bool_decide.
  - by rewrite last_snoc.
  - by rewrite app_nil_r.
Qed.

(** A fresh light has its three slots, all [None]. *)
Lemma init_slots (enable name : string) (bri col : option string) :
  let d := Light._state_dict (Light.init enable bri col name) in
  d !! STATE_KEY_STATE = Some Py.None_
  ∧ d !! Light.STATE_KEY_BRIGHTNESS = Some Py.None_
  ∧ d !! Light.STATE_KEY_RGBW_COLOR = Some Py.None_.
Proof. done. Qed.

(** Without a brightness variable no subscription fills the brightness
    slot. *)
Lemma no_brightness_subscription
    (enable name : string) (col : option string) (s : Subscription) :
  s ∈ Light.async_added_to_hass (Light.init enable None col name) →
  sub_key s ≠ Light.STATE_KEY_BRIGHTNESS.
Proof.
  unfold Light.async_added_to_hass. simpl.
  destruct col; simpl; rewrite ?elem_of_cons, elem_of_nil;
    intros Hs; destruct_or!; subst; done.
Qed.

(** Events that are all filtered out leave nothing. *)
Lemma omap_all_none {A B} (f : A → option B) (l : list A) :
  (∀ x, x ∈ l → f x = None) → omap f l = [].
Proof.
  induction l as [| x l IH]; intros Hnone; [done |].
  simpl. rewrite Hnone by set_solver. apply IH.
  intros y Hy. apply Hnone. set_solver.
Qed.

(** C9: reading the brightness returns normally, logs nothing and yields
    the stored value as it is.  For a light that was constructed and then
    notified, that is the value of the last brightness notification, whatever
    it is; it is [None] before any notification, and it is [None] when no
    brightness variable is configured. *)
Theorem brightness_last_notified
    (enable name : string) (bri col : option string)
    (evs : list (Subscription * Py.val)) (world : World) :
  let light := Light.notify_all (Light.init enable bri col name) evs in
  let unset := Light.notify_all (Light.init enable None col name) evs in
  (∀ (self : Light.AdsLight) (stored : Py.val),
      Light._state_dict self !! Light.STATE_KEY_BRIGHTNESS = Some stored →
      Light.brightness self world = (Py.Return stored, world))
  ∧ Light.brightness light world
      = (Py.Return (last_notified (Light.async_added_to_hass light)
                      Light.STATE_KEY_BRIGHTNESS evs),
         world)
  ∧ Light.brightness (Light.init enable bri col name) world = (Py.Return Py.None_, world)
  ∧ Light.brightness unset world = (Py.Return Py.None_, world).
Proof.
  intros light unset.
  assert (Hread : ∀ (self : Light.AdsLight) (stored : Py.val),
             Light._state_dict self !! Light.STATE_KEY_BRIGHTNESS = Some stored →
             Light.brightness self world = (Py.Return stored, world)).
  { intros self stored Hslot. unfold Light.brightness. run_monad. by rewrite Hslot. }
  split_and!; [done | | by apply Hread |].
  - apply Hread. subst light.
    rewrite notify_all_lookup, notify_all_subscriptions.
    unfold last_notified. by destruct (last _).
  - apply Hread. subst unset. rewrite notify_all_lookup.
    rewrite omap_all_none; [done |].
    intros ev _.
    rewrite bool_decide_eq_false_2; [done |].
    intros [Hin Hkey]. by apply no_brightness_subscription in Hin.
Qed.

(** ** Malformed colour samples *)

Section ColorReadFailures.

Variable int_of_str : string -> option Z.

(** [int] raises [OverflowError] on the infinite floats and on nothing
    else; its other failures are [ValueError] and [TypeError]. *)
Lemma int_raise (v : Py.val) (e : Py.exn) :
  Py.int int_of_str v = Py.Raise e →
  (e = Py.OverflowError ∧ ∃ s, v = Py.Float (S754_infinity s))
  ∨ ((e = Py.ValueError ∨ e = Py.TypeError) ∧ ∀ s, v ≠ Py.Float (S754_infinity s)).
Proof.
  destruct v as [| b | z | [s | s | | s m x] | str | items | items]; simpl;
    try destruct (int_of_str str); intros [= <-]; naive_solver.
Qed.

(** The slot holding [None] reads as absent, silently. *)
Lemma rgbw_color_no_sample (self : Light.AdsLight) (world : World) :
  Light._state_dict self !! Light.STATE_KEY_RGBW_COLOR = Some Py.None_ →
  Light.rgbw_color int_of_str self world = (Py.Return None, world).
Proof. intros Hslot. unfold Light.rgbw_color. run_monad. by rewrite Hslot. Qed.

(** X5: a sample that is not a tuple or list of four items reads as absent,
    with one warning that names its type. *)
Lemma rgbw_color_unexpected_shape
    (self : Light.AdsLight) (rgbw : Py.val) (world : World) :
  Light._state_dict self !! Light.STATE_KEY_RGBW_COLOR = Some rgbw →
  rgbw ≠ Py.None_ →
  (∀ items, rgbw = Py.Tuple items ∨ rgbw = Py.List items → length items ≠ 4%nat) →
  Light.rgbw_color int_of_str self world
    = (Py.Return None,
       mkWorld
         (warnings world
          ++ [WARNING "Unexpected rgbw_color value (expected tuple/list of 4): %s"
                [ArgType (Py.type_of rgbw)]])
         (hub_writes world)).
Proof.
  intros Hslot Hsome Hshape. unfold Light.rgbw_color. run_monad. rewrite Hslot.
  destruct rgbw as [| b | z | f | str | items | items]; simpl; try done;
    by rewrite bool_decide_eq_false_2 by (apply Hshape; auto).
Qed.

(** X6: a tuple or list of four items, none of them an infinite float, of
    which some item has no integer value, reads as absent, with one warning
    that shows the sample. *)
Lemma rgbw_color_non_integer
    (self : Light.AdsLight) (rgbw : Py.val) (items : list Py.val) (world : World) :
  Light._state_dict self !! Light.STATE_KEY_RGBW_COLOR = Some rgbw →
  rgbw = Py.Tuple items ∨ rgbw = Py.List items →
  length items = 4%nat →
  Forall (fun v => ∀ s, v ≠ Py.Float (S754_infinity s)) items →
  ¬ Forall (fun v => ∃ z, Py.int int_of_str v = Py.Return z) items →
  Light.rgbw_color int_of_str self world
    = (Py.Return None,
       mkWorld
         (warnings world
          ++ [WARNING "rgbw_color has non-integer values: %s" [ArgVal rgbw]])
         (hub_writes world)).
Proof.
  intros Hslot Hseq Hlen Hfin Hbad.
  rewrite (rgbw_color_four int_of_str self rgbw items world Hslot Hseq Hlen).
  destruct items as [| x0 [| x1 [| x2 [| x3 [| ? ?]]]]]; try done.
  apply Forall_cons in Hfin as [H0 Hfin]. apply Forall_cons in Hfin as [H1 Hfin].
  apply Forall_cons in Hfin as [H2 Hfin]. apply Forall_cons in Hfin as [H3 _].
  unfold Light.decode4, Light.coerce4. run_monad. simpl.
  destruct (Py.int int_of_str x0) as [z0 | e0] eqn:E0;
    [| destruct (int_raise _ _ E0) as [[_ [s ->]] | [[-> | ->] _]]; [by destruct (H0 s) | done..]].
  destruct (Py.int int_of_str x1) as [z1 | e1] eqn:E1;
    [| destruct (int_raise _ _ E1) as [[_ [s ->]] | [[-> | ->] _]]; [by destruct (H1 s) | done..]].
  destruct (Py.int int_of_str x2) as [z2 | e2] eqn:E2;
    [| destruct (int_raise _ _ E2) as [[_ [s ->]] | [[-> | ->] _]]; [by destruct (H2 s) | done..]].
  destruct (Py.int int_of_str x3) as [z3 | e3] eqn:E3;
    [| destruct (int_raise _ _ E3) as [[_ [s ->]] | [[-> | ->] _]]; [by destruct (H3 s) | done..]].
  destruct Hbad. repeat (apply Forall_cons; split; [eauto |]). apply Forall_nil_2.
Qed.

End ColorReadFailures.

(** C1 at a sample the handler misses: with a list whose first item is an
    infinite float stored as the colour sample, the colour read does not
    return: [int] raises [OverflowError], which the handler for [ValueError]
    and [TypeError] lets through, and no warning is logged. *)
Theorem rgbw_color_infinite_float_escapes
    (int_of_str : string -> option Z)
    (enable name color : string) (bri : option string) (s : bool) (world : World) :
  let sample := Py.List [Py.Float (S754_infinity s); Py.Int 0; Py.Int 0; Py.Int 0] in
  let self :=
    Light.notify_all (Light.init enable bri (Some color) name)
      [(mkSubscription color (PLCTYPE_ARR_UINT 4) Light.STATE_KEY_RGBW_COLOR, sample)] in
  Light.rgbw_color int_of_str self world = (Py.Raise Py.OverflowError, world).
Proof.
  intros sample self.
  assert (Hslot : Light._state_dict self !! Light.STATE_KEY_RGBW_COLOR = Some sample).
  { subst self. rewrite notify_all_lookup. simpl.
    rewrite bool_decide_eq_true_2; [done |].
    split; [| done]. unfold Light.async_added_to_hass. simpl.
    destruct bri; set_solver. }
  rewrite (rgbw_color_four int_of_str self sample _ world Hslot (or_intror eq_refl) eq_refl).
  done.
Qed.

(** ** The statements at sample inputs *)

Lemma rgbw_color_in_range_unchanged_witness :
  Light.rgbw_color no_literal
    (color_light (Py.Tuple [Py.Int 10; Py.Int 0; Py.Int 255; Py.Int 128])) empty_world
  = (Py.Return (Some (10, 0, 255, 128)), empty_world).
Proof.
  apply (rgbw_color_in_range_unchanged no_literal _ false 10 0 255 128 empty_world);
    [vm_compute; reflexivity | lia..].
Defined.

(** The sample (300, -5, 128, 256) reads as (255, 0, 128, 255) with one
    warning. *)
Lemma rgbw_color_out_of_range_clamped_witness :
  Light.rgbw_color no_literal
    (color_light (Py.Tuple [Py.Int 300; Py.Int (-5); Py.Int 128; Py.Int 256])) empty_world
  = (Py.Return (Some (255, 0, 128, 255)),
     mkWorld
       [WARNING "rgbw_color values out of range 0-255: R=%d, G=%d, B=%d, W=%d"
          [ArgInt 300; ArgInt (-5); ArgInt 128; ArgInt 256]]
       []).
Proof.
  apply (rgbw_color_out_of_range_clamped no_literal _ false 300 (-5) 128 256 empty_world);
    [vm_compute; reflexivity | lia].
Defined.

Lemma light_turn_on_writes_witness :
  ∃ issued,
    Light.turn_on (dimmable_light (Py.Int 0)) (mkKwargs (Some 128) None) empty_world
      = (Py.Return tt, mkWorld [] issued)
    ∧ issued ≡ₚ [status_write (dimmable_light (Py.Int 0)) true;
                 brightness_write "GVL.nLevel" 128]
    ∧ length issued = 2%nat.
Proof.
  destruct (light_turn_on_writes (dimmable_light (Py.Int 0)) (mkKwargs (Some 128) None)
              empty_world)
    as (issued & bw & cw & Hrun & _ & _ & _ & _ & _ & _ & Htwo).
  exists issued. split; [exact Hrun |].
  apply Htwo; reflexivity.
Defined.

Lemma light_turn_on_drops_short_color_witness :
  ∃ issued,
    Light.turn_on (color_light Py.None_) (mkKwargs None (Some [255; 0; 0])) empty_world
      = (Py.Return tt, mkWorld [] issued)
    ∧ status_write (color_light Py.None_) true ∈ issued
    ∧ Forall (fun wr => w_type wr ≠ PLCTYPE_ARR_UINT 4
                        ∧ ∀ cells, w_value wr ≠ ValArr cells) issued.
Proof.
  apply (light_turn_on_drops_short_color (color_light Py.None_)
           (mkKwargs None (Some [255; 0; 0])) empty_world "GVL.aColor" [255; 0; 0]);
    [reflexivity | reflexivity | simpl; lia].
Defined.

Lemma switch_turn_off_writes_witness :
  ∃ issued,
    Switch.turn_off pulse_switch (mkKwargs None None) empty_world
      = (Py.Return tt, mkWorld [] issued)
    ∧ issued = [mkWrite "GVL.bOffCmd" (ValBool true) PLCTYPE_BOOL]
    ∧ Forall (fun wr => w_name wr ≠ "GVL.bOn") issued.
Proof.
  destruct (switch_turn_off_writes "GVL.bOn" "ADS Switch" "GVL.bOffCmd" None
              (mkKwargs None None) empty_world)
    as [(issued & Hrun & Hone & Hother) _].
  exists issued. split; [exact Hrun |]. split; [exact Hone |].
  apply Hother. discriminate.
Defined.

(** A stored brightness beyond 255 is read back as it is. *)
Lemma brightness_last_notified_witness :
  Light.brightness (dimmable_light (Py.Int 70000)) empty_world
  = (Py.Return (Py.Int 70000), empty_world).
Proof.
  apply (proj1 (brightness_last_notified "GVL.bLamp" "ADS Light" None None [] empty_world)).
  vm_compute. reflexivity.
Defined.

(** ** Further properties of the colour read *)

Section ColorReadMore.

Variable int_of_str : string -> option Z.

(** What [decode4] does on four items, by the outcome of the coercions:
    the world is only ever extended by warnings, and on success the channels
    are the clamped integers. *)
Lemma decode4_cases (rgbw x0 x1 x2 x3 : Py.val) :
  (∃ r g b w,
      Py.int int_of_str x0 = Py.Return r ∧ Py.int int_of_str x1 = Py.Return g
      ∧ Py.int int_of_str x2 = Py.Return b ∧ Py.int int_of_str x3 = Py.Return w
      ∧ ∀ world,
        Light.decode4 int_of_str rgbw [x0; x1; x2; x3] world
        = (Py.Return (Some (Light.clamp r, Light.clamp g, Light.clamp b, Light.clamp w)),
           mkWorld
             (warnings world
              ++ if forallb Light.in_range [r; g; b; w] then []
                 else [WARNING "rgbw_color values out of range 0-255: R=%d, G=%d, B=%d, W=%d"
                         [ArgInt r; ArgInt g; ArgInt b; ArgInt w]])
             (hub_writes world)))
  ∨ (Exists (fun x => ∃ e, Py.int int_of_str x = Py.Raise e
                           ∧ (e = Py.ValueError ∨ e = Py.TypeError)) [x0; x1; x2; x3]
     ∧ ∀ world,
       Light.decode4 int_of_str rgbw [x0; x1; x2; x3] world
       = (Py.Return None,
          mkWorld
            (warnings world
             ++ [WARNING "rgbw_color has non-integer values: %s" [ArgVal rgbw]])
            (hub_writes world)))
  ∨ (Exists (fun x => ∃ s, x = Py.Float (S754_infinity s)) [x0; x1; x2; x3]
     ∧ ∀ world,
       Light.decode4 int_of_str rgbw [x0; x1; x2; x3] world
       = (Py.Raise Py.OverflowError, world)).
Proof.
  unfold Light.decode4, Light.coerce4. run_monad. simpl.
  destruct (Py.int int_of_str x0) as [r | e0] eqn:E0.
  2: { right. destruct (int_raise _ _ _ E0) as [[-> [s ->]] | [[-> | ->] _]]; simpl;
         [right | left | left]; (split; [apply Exists_cons_hd; eauto | done]). }
  destruct (Py.int int_of_str x1) as [g | e1] eqn:E1.
  2: { right. destruct (int_raise _ _ _ E1) as [[-> [s ->]] | [[-> | ->] _]]; simpl;
         [right | left | left];
         (split; [apply Exists_cons_tl, Exists_cons_hd; eauto | done]). }
  destruct (Py.int int_of_str x2) as [b | e2] eqn:E2.
  2: { right. destruct (int_raise _ _ _ E2) as [[-> [s ->]] | [[-> | ->] _]]; simpl;
         [right | left | left];
         (split; [apply Exists_cons_tl, Exists_cons_tl, Exists_cons_hd; eauto | done]). }
  destruct (Py.int int_of_str x3) as [w | e3] eqn:E3.
  2: { right. destruct (int_raise _ _ _ E3) as [[-> [s ->]] | [[-> | ->] _]]; simpl;
         [right | left | left];
         (split; [apply Exists_cons_tl, Exists_cons_tl, Exists_cons_tl, Exists_cons_hd; eauto
                 | done]). }
  left. exists r, g, b, w. split_and!; try done.
  intros [log ws].
  match goal with |- context [negb ?c] => destruct c end; simpl; [| done].
  by rewrite app_nil_r.
Qed.

(** The four ways a colour read can go, by what the slot holds. *)
Lemma rgbw_color_cases (self : Light.AdsLight) :
  (Light._state_dict self !! Light.STATE_KEY_RGBW_COLOR = None
   ∧ ∀ world, Light.rgbw_color int_of_str self world = (Py.Raise Py.KeyError, world))
  ∨ (Light._state_dict self !! Light.STATE_KEY_RGBW_COLOR = Some Py.None_
     ∧ ∀ world, Light.rgbw_color int_of_str self world = (Py.Return None, world))
  ∨ (∃ rgbw,
        Light._state_dict self !! Light.STATE_KEY_RGBW_COLOR = Some rgbw
        ∧ rgbw ≠ Py.None_
        ∧ (∀ items, rgbw = Py.Tuple items ∨ rgbw = Py.List items → length items ≠ 4%nat)
        ∧ ∀ world,
          Light.rgbw_color int_of_str self world
          = (Py.Return None,
             mkWorld
               (warnings world
                ++ [WARNING "Unexpected rgbw_color value (expected tuple/list of 4): %s"
                      [ArgType (Py.type_of rgbw)]])
               (hub_writes world)))
  ∨ (∃ rgbw x0 x1 x2 x3,
        Light._state_dict self !! Light.STATE_KEY_RGBW_COLOR = Some rgbw
        ∧ (rgbw = Py.Tuple [x0; x1; x2; x3] ∨ rgbw = Py.List [x0; x1; x2; x3])
        ∧ ∀ world,
          Light.rgbw_color int_of_str self world
          = Light.decode4 int_of_str rgbw [x0; x1; x2; x3] world).
Proof.
  unfold Light.rgbw_color. run_monad.
  destruct (Light._state_dict self !! Light.STATE_KEY_RGBW_COLOR) as [rgbw |];
    [| by left].
  right.
  destruct rgbw as [| b | z | f | str | items | items]; simpl.
  1: by left.
  1-4: right; left; eexists; split_and!; try done; by intros items [|].
  all: destruct (decide (length items = 4%nat)) as [Hlen | Hlen].
  all: try (right; left; eexists; split_and!; try done;
            [ intros items' [[= <-] | [= <-]]; done
            | intros world; by rewrite bool_decide_eq_false_2 ]).
  all: destruct items as [| x0 [| x1 [| x2 [| x3 [| ? ?]]]]]; try done.
  all: right; right; eexists _, x0, x1, x2, x3; split_and!; eauto.
Qed.

End ColorReadMore.

Lemma clamp_bounds (v : Z) : 0 ≤ Light.clamp v ≤ 255.
Proof. unfold Light.clamp. lia. Qed.

Lemma world_eta (world : World) :
  mkWorld (warnings world ++ []) (hub_writes world) = world.
Proof. destruct world. simpl. by rewrite app_nil_r. Qed.

(** X1: whatever the colour slot holds, a colour that the read returns has
    all four channels between 0 and 255. *)
Theorem rgbw_color_channels_in_range
    (int_of_str : string -> option Z)
    (self : Light.AdsLight) (world world' : World) (r g b w : Z) :
  Light.rgbw_color int_of_str self world = (Py.Return (Some (r, g, b, w)), world') →
  0 ≤ r ≤ 255 ∧ 0 ≤ g ≤ 255 ∧ 0 ≤ b ≤ 255 ∧ 0 ≤ w ≤ 255.
Proof.
  intros Hrun.
  destruct (rgbw_color_cases int_of_str self)
    as [[_ H] | [[_ H] | [(rgbw & _ & _ & _ & H) | (rgbw & x0 & x1 & x2 & x3 & _ & _ & H)]]];
    rewrite H in Hrun; try discriminate.
  destruct (decode4_cases int_of_str rgbw x0 x1 x2 x3)
    as [(r0 & g0 & b0 & w0 & _ & _ & _ & _ & Hd) | [[_ Hd] | [_ Hd]]];
    rewrite Hd in Hrun; try discriminate.
  injection Hrun as <- <- <- <- _.
  auto using clamp_bounds.
Qed.

(** X2: a colour read never touches the hub and logs at most one warning;
    its outcome and the warning depend on the light alone, not on the world
    it runs in. *)
Theorem rgbw_color_footprint (int_of_str : string -> option Z) (self : Light.AdsLight) :
  ∃ outcome extra,
    (length extra ≤ 1)%nat
    ∧ ∀ world,
      Light.rgbw_color int_of_str self world
      = (outcome, mkWorld (warnings world ++ extra) (hub_writes world)).
Proof.
  destruct (rgbw_color_cases int_of_str self)
    as [[_ H] | [[_ H] | [(rgbw & _ & _ & _ & H) | (rgbw & x0 & x1 & x2 & x3 & _ & _ & H)]]].
  - exists (Py.Raise Py.KeyError), []. split; [simpl; lia |].
    intros world. by rewrite H, world_eta.
  - exists (Py.Return None), []. split; [simpl; lia |].
    intros world. by rewrite H, world_eta.
  - eexists _, [_]. split; [simpl; lia |]. exact H.
  - destruct (decode4_cases int_of_str rgbw x0 x1 x2 x3)
      as [(r0 & g0 & b0 & w0 & _ & _ & _ & _ & Hd) | [[_ Hd] | [_ Hd]]].
    + eexists _, _. split; [| intros world; rewrite H; apply Hd].
      destruct (forallb _ _); simpl; lia.
    + eexists _, [_]. split; [simpl; lia |]. intros world. rewrite H. apply Hd.
    + exists (Py.Raise Py.OverflowError), []. split; [simpl; lia |].
      intros world. by rewrite H, Hd, world_eta.
Qed.

(** X3: a colour read raises in two situations only: [KeyError] when the
    light has no colour slot, and [OverflowError] when the slot holds a tuple
    or list of four items one of which is an infinite float.  Either way the
    world is left as it was. *)
Theorem rgbw_color_raises_only
    (int_of_str : string -> option Z)
    (self : Light.AdsLight) (world world' : World) (e : Py.exn) :
  Light.rgbw_color int_of_str self world = (Py.Raise e, world') →
  world' = world
  ∧ ((e = Py.KeyError
      ∧ Light._state_dict self !! Light.STATE_KEY_RGBW_COLOR = None)
     ∨ (e = Py.OverflowError
        ∧ ∃ items s,
            (Light._state_dict self !! Light.STATE_KEY_RGBW_COLOR = Some (Py.Tuple items)
             ∨ Light._state_dict self !! Light.STATE_KEY_RGBW_COLOR = Some (Py.List items))
            ∧ length items = 4%nat
            ∧ Py.Float (S754_infinity s) ∈ items)).
Proof.
  intros Hrun.
  destruct (rgbw_color_cases int_of_str self)
    as [[Hs H] | [[_ H] | [(rgbw & _ & _ & _ & H) | (rgbw & x0 & x1 & x2 & x3 & Hs & Hseq & H)]]];
    rewrite H in Hrun; try discriminate.
  - injection Hrun as <- <-. auto.
  - destruct (decode4_cases int_of_str rgbw x0 x1 x2 x3)
      as [(r0 & g0 & b0 & w0 & _ & _ & _ & _ & Hd) | [[_ Hd] | [Hinf Hd]]];
      rewrite Hd in Hrun; try discriminate.
    injection Hrun as <- <-. split; [done |]. right. split; [done |].
    apply Exists_exists in Hinf as (x & Hx & s & ->).
    exists [x0; x1; x2; x3], s. split_and!; [| done | done].
    destruct Hseq as [-> | ->]; auto.
Qed.

(** X4: the items of a stored tuple or list of four are coerced with
    [int], so booleans, finite floats and numeric strings are accepted beside
    integers: when each item has an integer value the read returns those
    values clamped to 0..255, and it logs one warning exactly when some value
    was out of range. *)
Theorem rgbw_color_coerces
    (int_of_str : string -> option Z)
    (self : Light.AdsLight) (rgbw x0 x1 x2 x3 : Py.val) (r g b w : Z) (world : World) :
  Light._state_dict self !! Light.STATE_KEY_RGBW_COLOR = Some rgbw →
  rgbw = Py.Tuple [x0; x1; x2; x3] ∨ rgbw = Py.List [x0; x1; x2; x3] →
  Py.int int_of_str x0 = Py.Return r → Py.int int_of_str x1 = Py.Return g →
  Py.int int_of_str x2 = Py.Return b → Py.int int_of_str x3 = Py.Return w →
  Light.rgbw_color int_of_str self world
  = (Py.Return (Some (clamp_to 0 255 r, clamp_to 0 255 g,
                      clamp_to 0 255 b, clamp_to 0 255 w)),
     mkWorld
       (warnings world
        ++ if decide (0 ≤ r ≤ 255 ∧ 0 ≤ g ≤ 255 ∧ 0 ≤ b ≤ 255 ∧ 0 ≤ w ≤ 255) then []
           else [WARNING "rgbw_color values out of range 0-255: R=%d, G=%d, B=%d, W=%d"
                   [ArgInt r; ArgInt g; ArgInt b; ArgInt w]])
       (hub_writes world)).
Proof.
  intros Hslot Hseq E0 E1 E2 E3.
  rewrite (rgbw_color_four int_of_str self rgbw [x0; x1; x2; x3] world Hslot Hseq eq_refl).
  destruct (decode4_cases int_of_str rgbw x0 x1 x2 x3)
    as [(r0 & g0 & b0 & w0 & F0 & F1 & F2 & F3 & Hd) | [[Hbad _] | [Hinf _]]].
  - rewrite Hd, <- !clamp_clamp_to.
    assert (r0 = r ∧ g0 = g ∧ b0 = b ∧ w0 = w) as (-> & -> & -> & ->)
      by (split_and!; congruence).
    destruct (forallb Light.in_range [r; g; b; w]) eqn:Hall; case_decide as Hdec; try done.
    + by apply all_in_range_spec in Hall.
    + apply all_in_range_spec in Hdec. congruence.
  - apply Exists_exists in Hbad as (x & Hx & e & He & _).
    rewrite !elem_of_cons, elem_of_nil in Hx. destruct_or!; subst; congruence.
  - apply Exists_exists in Hinf as (x & Hx & s & ->).
    rewrite !elem_of_cons, elem_of_nil in Hx. destruct_or!; subst; done.
Qed.

(** ** Further properties of the light's state *)

(** The subscriptions of a light, whatever its configuration, fill only
    the three slots that [__init__] creates. *)
Lemma light_subscription_keys (self : Light.AdsLight) (s : Subscription) :
  s ∈ Light.async_added_to_hass self →
  sub_key s = STATE_KEY_STATE
  ∨ sub_key s = Light.STATE_KEY_BRIGHTNESS
  ∨ sub_key s = Light.STATE_KEY_RGBW_COLOR.
Proof.
  unfold Light.async_added_to_hass.
  destruct (Light._ads_var_brightness self), (Light._ads_var_rgbw_color self);
    simpl; rewrite ?elem_of_cons, elem_of_nil; intros Hs; destruct_or!; subst; auto.
Qed.

(** X7: a light that was constructed and then notified any number of times
    keeps exactly the three slots state, brightness and rgbw_color, so the
    reads [is_on] and [brightness] return and the colour read never fails
    with [KeyError]. *)
Theorem light_slots_kept
    (int_of_str : string -> option Z)
    (enable name : string) (bri col : option string)
    (evs : list (Subscription * Py.val)) (world : World) :
  let light := Light.notify_all (Light.init enable bri col name) evs in
  dom (Light._state_dict light)
    = ({[ STATE_KEY_STATE; Light.STATE_KEY_BRIGHTNESS; Light.STATE_KEY_RGBW_COLOR ]}
       : gset string)
  ∧ (∃ v, Light.is_on light world = (Py.Return v, world))
  ∧ (∃ v, Light.brightness light world = (Py.Return v, world))
  ∧ (∀ world', Light.rgbw_color int_of_str light world ≠ (Py.Raise Py.KeyError, world')).
Proof.
  intros light.
  assert (Hdom : dom (Light._state_dict light)
                 = ({[ STATE_KEY_STATE; Light.STATE_KEY_BRIGHTNESS;
                       Light.STATE_KEY_RGBW_COLOR ]} : gset string)).
  { subst light. induction evs as [| ev evs IH] using rev_ind.
    - simpl. unfold Light._state_dict, Light.init, AdsEntity.setitem, AdsEntity.init. simpl.
      rewrite !dom_insert_L, dom_empty_L. set_solver.
    - unfold Light.notify_all in *. rewrite foldl_app. simpl.
      fold (Light.notify_all (Light.init enable bri col name) evs) in *.
      unfold Light.notify. case_bool_decide as Hin; [| done].
      apply light_subscription_keys in Hin.
      unfold Light._state_dict in *. simpl. rewrite dom_insert_L, IH.
      destruct Hin as [-> | [-> | ->]]; set_solver. }
  assert (Hslot : ∀ key,
             key ∈ ({[ STATE_KEY_STATE; Light.STATE_KEY_BRIGHTNESS;
                       Light.STATE_KEY_RGBW_COLOR ]} : gset string) →
             is_Some (Light._state_dict light !! key)).
  { intros key Hkey. apply elem_of_dom. by rewrite Hdom. }
  split_and!; [done | | |].
  - destruct (Hslot STATE_KEY_STATE) as [v Hv]; [set_solver |].
    exists v. unfold Light.is_on. run_monad. by rewrite Hv.
  - destruct (Hslot Light.STATE_KEY_BRIGHTNESS) as [v Hv]; [set_solver |].
    exists v. unfold Light.brightness. run_monad. by rewrite Hv.
  - destruct (Hslot Light.STATE_KEY_RGBW_COLOR) as [v Hv]; [set_solver |].
    intros world' Hrun.
    destruct (rgbw_color_cases int_of_str light)
      as [[Hnone _] | [[_ H] | [(rgbw & _ & _ & _ & H) | (rgbw & x0 & x1 & x2 & x3 & _ & _ & H)]]];
      [congruence | rewrite H in Hrun; try discriminate..].
    destruct (decode4_cases int_of_str rgbw x0 x1 x2 x3)
      as [(r0 & g0 & b0 & w0 & _ & _ & _ & _ & Hd) | [[_ Hd] | [_ Hd]]];
      rewrite Hd in Hrun; discriminate.
Qed.

(** Filters that agree pointwise keep the same events. *)
Lemma omap_pointwise {A B} (f g : A → option B) (l : list A) :
  (∀ x, f x = g x) → omap f l = omap g l.
Proof.
  intros Hfg. induction l as [| x l IH]; [done |].
  csimpl. by rewrite Hfg, IH.
Qed.

(** X8: [is_on] of a light returns what the status subscription last
    notified, as it is, and [None] (not a boolean) before the first status
    notification; notifications for brightness or colour do not show in it. *)
Theorem light_is_on_last_notified
    (enable name : string) (bri col : option string)
    (evs : list (Subscription * Py.val)) (world : World) :
  let light := Light.notify_all (Light.init enable bri col name) evs in
  let status := mkSubscription enable PLCTYPE_BOOL STATE_KEY_STATE in
  Light.is_on light world
    = (Py.Return (default Py.None_
                    (last (omap (fun ev : Subscription * Py.val =>
                                   if bool_decide (ev.1 = status) then Some ev.2 else None)
                             evs))),
       world).
Proof.
  intros light status. unfold Light.is_on. run_monad. subst light.
  rewrite notify_all_lookup.
  rewrite (omap_pointwise _
             (fun ev : Subscription * Py.val =>
                if bool_decide (ev.1 = status) then Some ev.2 else None)).
  - by destruct (last _).
  - intros [s v]. simpl. apply (f_equal (fun c : bool => if c then Some v else None)).
    apply bool_decide_ext.
    unfold Light.async_added_to_hass. simpl. subst status.
    unfold AdsEntity.async_initialize_device, Light._ads_var. simpl.
    destruct bri, col; simpl; rewrite ?elem_of_cons, elem_of_nil; split.
    all: try (intros [Hin Hkey]; destruct_or!; subst; done).
    all: intros ->; split; [by left | done].
Qed.

(** ** Further properties of the light's commands *)

(** The 16-bit image of any integer is a 16-bit value. *)
Lemma c_uint16_bounds (v : Z) : 0 ≤ c_uint16 v < 2 ^ 16.
Proof. unfold c_uint16. apply Z.mod_pos_bound. lia. Qed.

(** X9: every array that a turn-on writes goes to the configured colour
    variable with the four-cell array type, has exactly four cells, and each
    cell is a 16-bit value; a supplied colour of four values that are already
    16-bit values is written as it is. *)
Theorem light_turn_on_cells (self : Light.AdsLight) (kwargs : Kwargs) (world : World) :
  ∃ issued,
    Light.turn_on self kwargs world
      = (Py.Return tt, mkWorld (warnings world) (hub_writes world ++ issued))
    ∧ Forall (fun wr => ∀ cells,
                w_value wr = ValArr cells →
                Light._ads_var_rgbw_color self = Some (w_name wr)
                ∧ w_type wr = PLCTYPE_ARR_UINT 4
                ∧ length cells = 4%nat
                ∧ Forall (fun c => 0 ≤ c < 2 ^ 16) cells) issued
    ∧ (∀ var color,
          Light._ads_var_rgbw_color self = Some var →
          ATTR_RGBW_COLOR kwargs = Some color →
          length color = 4%nat →
          Forall (fun c => 0 ≤ c < 2 ^ 16) color →
          mkWrite var (ValArr color) (PLCTYPE_ARR_UINT 4) ∈ issued).
Proof.
  eexists. split; [apply light_turn_on_run |]. split.
  - apply List.Forall_cons; [by intros cells [=] |].
    apply Forall_app. split.
    + unfold due_brightness.
      destruct (Light._ads_var_brightness self), (ATTR_BRIGHTNESS kwargs);
        repeat (apply List.Forall_cons; [by intros cells [=] |]); apply List.Forall_nil.
    + unfold due_color.
      destruct (Light._ads_var_rgbw_color self) as [var |],
               (ATTR_RGBW_COLOR kwargs) as [color |];
        try case_bool_decide as Hlen; try apply List.Forall_nil.
      apply List.Forall_cons; [| apply List.Forall_nil].
      intros cells [= <-]. simpl. split_and!; try done.
      * by rewrite length_fmap.
      * apply Forall_fmap, Forall_forall. intros c _. apply c_uint16_bounds.
  - intros var color Hvar Hcol Hlen Hbits.
    destruct (due_color_spec self kwargs) as [Hdue _].
    rewrite (Hdue var color Hvar Hcol Hlen). unfold color_write.
    rewrite (c_uint16_id color Hbits). set_solver.
Qed.

(** X10: write and read back.  After a turn-on with a colour of four
    values on a light with a colour variable, the cells written, once notified
    back as a tuple of integers, are read as the values reduced modulo 65536
    and then clamped to 0..255; for a colour with all channels in 0..255 the
    read returns the colour that was sent, without a warning. *)
Theorem light_color_round_trip
    (int_of_str : string -> option Z)
    (enable name color : string) (bri : option string) (level : option Z)
    (r g b w : Z) (world : World) :
  let light := Light.init enable bri (Some color) name in
  let sub := mkSubscription color (PLCTYPE_ARR_UINT 4) Light.STATE_KEY_RGBW_COLOR in
  ∃ cells,
    mkWrite color (ValArr cells) (PLCTYPE_ARR_UINT 4)
      ∈ hub_writes (Light.turn_on light (mkKwargs level (Some [r; g; b; w])) world).2
    ∧ (Light.rgbw_color int_of_str (Light.notify light (sub, int_seq false cells)) world).1
      = Py.Return (Some (clamp_to 0 255 (r mod 2 ^ 16), clamp_to 0 255 (g mod 2 ^ 16),
                         clamp_to 0 255 (b mod 2 ^ 16), clamp_to 0 255 (w mod 2 ^ 16)))
    ∧ (0 ≤ r ≤ 255 → 0 ≤ g ≤ 255 → 0 ≤ b ≤ 255 → 0 ≤ w ≤ 255 →
       Light.rgbw_color int_of_str (Light.notify light (sub, int_seq false cells)) world
       = (Py.Return (Some (r, g, b, w)), world)).
Proof.
  intros light sub.
  exists (c_uint16 <$> [r; g; b; w]).
  assert (Hslot : Light._state_dict
                    (Light.notify light (sub, int_seq false (c_uint16 <$> [r; g; b; w])))
                  !! Light.STATE_KEY_RGBW_COLOR
                  = Some (int_seq false [c_uint16 r; c_uint16 g; c_uint16 b; c_uint16 w])).
  { rewrite notify_lookup. simpl. rewrite bool_decide_eq_true_2; [done |].
    split; [| done]. subst light sub. unfold Light.async_added_to_hass. simpl.
    destruct bri; set_solver. }
  split_and!.
  - rewrite light_turn_on_run. simpl.
    unfold due_color. simpl. unfold color_write. set_solver.
  - rewrite (rgbw_color_ints int_of_str _ false _ _ _ _ world Hslot). simpl.
    by rewrite !clamp_clamp_to.
  - intros Hr Hg Hb Hw.
    rewrite (rgbw_color_ints int_of_str _ false _ _ _ _ world Hslot).
    unfold c_uint16. rewrite !Z.mod_small by lia.
    rewrite (proj2 (all_in_range_spec r g b w)) by done.
    by rewrite !clamp_in_range.
Qed.

(** X11: the colour mode chosen at construction bounds what a turn-on
    writes.  An ONOFF light issues the status write alone whatever the keyword
    arguments; a BRIGHTNESS light never issues a colour write; an RGBW light
    that also has a brightness variable still writes a supplied brightness. *)
Theorem light_mode_bounds_writes
    (enable name : string) (bri col : option string) (kwargs : Kwargs) (world : World) :
  let light := Light.init enable bri col name in
  ∃ issued,
    Light.turn_on light kwargs world
      = (Py.Return tt, mkWorld (warnings world) (hub_writes world ++ issued))
    ∧ match Light._attr_color_mode light with
      | ONOFF => issued = [status_write light true]
      | BRIGHTNESS => Forall (fun wr => w_type wr ≠ PLCTYPE_ARR_UINT 4) issued
      | RGBW => ∀ var value,
                  bri = Some var → ATTR_BRIGHTNESS kwargs = Some value →
                  brightness_write var value ∈ issued
      end.
Proof.
  intros light. eexists. split; [apply light_turn_on_run |].
  subst light. unfold due_brightness, due_color.
  destruct bri as [bvar |], col as [cvar |]; simpl.
  - intros var value [= <-] ->. set_solver.
  - destruct (ATTR_BRIGHTNESS kwargs); repeat constructor; done.
  - by intros var value [=].
  - by destruct (ATTR_BRIGHTNESS kwargs).
Qed.

(** ** Sequences of service calls *)

(** When each call returns and appends the writes [f self c], a run of
    calls returns and appends them all, in order. *)
Lemma calls_issued {E} (call : E → Command → M unit) (f : E → Command → list Write)
    (self : E) :
  (∀ c world,
      call self c world
      = (Py.Return tt, mkWorld (warnings world) (hub_writes world ++ f self c))) →
  ∀ cs world,
    calls call self cs world
    = (Py.Return tt,
       mkWorld (warnings world) (hub_writes world ++ concat (f self <$> cs))).
Proof.
  intros Hcall cs. induction cs as [| c cs IH]; intros world.
  - simpl. unfold mret, M_ret, ret. destruct world. simpl. by rewrite app_nil_r.
  - simpl. unfold mbind, M_bind, bind. rewrite Hcall, IH. simpl.
    by rewrite <- app_assoc.
Qed.

(** The writes of one call on a light. *)
Lemma light_call_run (self : Light.AdsLight) (c : Command) (world : World) :
  light_call self c world
  = (Py.Return tt,
     mkWorld (warnings world) (hub_writes world ++ light_call_writes self c)).
Proof. destruct c as [kwargs | kwargs]; [apply light_turn_on_run | done]. Qed.

(** Brightness and colour writes are not boolean writes. *)
Lemma due_not_bool (self : Light.AdsLight) (kwargs : Kwargs) :
  filter (fun wr => w_type wr = PLCTYPE_BOOL)
    (due_brightness self kwargs ++ due_color self kwargs) = [].
Proof.
  unfold due_brightness, due_color.
  destruct (Light._ads_var_brightness self), (ATTR_BRIGHTNESS kwargs),
           (Light._ads_var_rgbw_color self), (ATTR_RGBW_COLOR kwargs);
    simpl; try case_bool_decide; done.
Qed.

(** X12: over any run of turn-on and turn-off calls on a light, every call
    returns, nothing is logged, and the boolean writes issued are, in order,
    one write to the status variable per call, [True] for a turn-on and
    [False] for a turn-off; brightness and colour writes never carry a
    boolean. *)
Theorem light_status_stream (self : Light.AdsLight) (cs : list Command) (world : World) :
  ∃ issued,
    calls light_call self cs world
      = (Py.Return tt, mkWorld (warnings world) (hub_writes world ++ issued))
    ∧ filter (fun wr => w_type wr = PLCTYPE_BOOL) issued
      = (fun c => status_write self (wants_on c)) <$> cs.
Proof.
  eexists. split; [apply (calls_issued light_call light_call_writes self (light_call_run self)) |].
  induction cs as [| c cs IH]; [done |].
  rewrite fmap_cons, concat_cons, filter_app, IH. f_equal.
  destruct c as [kwargs | kwargs]; [| done].
  unfold light_call_writes. rewrite filter_cons_True by done.
  by rewrite due_not_bool.
Qed.

(** The write of one call on a switch. *)
Lemma switch_call_run (self : Switch.AdsSwitch) (c : Command) (world : World) :
  switch_call self c world
  = (Py.Return tt,
     mkWorld (warnings world) (hub_writes world ++ [switch_call_write self c])).
Proof.
  destruct c as [kwargs | kwargs];
    unfold switch_call, switch_call_write, Switch.turn_on, Switch.turn_off.
  - by destruct (Switch._ads_var_turn_on self).
  - by destruct (Switch._ads_var_turn_off self).
Qed.

(** A run of calls on a switch issues one write per call. *)
Lemma switch_calls_run (self : Switch.AdsSwitch) (cs : list Command) (world : World) :
  calls switch_call self cs world
  = (Py.Return tt,
     mkWorld (warnings world) (hub_writes world ++ (switch_call_write self <$> cs))).
Proof.
  rewrite (calls_issued switch_call (fun self c => [switch_call_write self c]) self
             (switch_call_run self)).
  do 3 f_equal. induction cs as [| c cs IH]; [done |].
  by rewrite !fmap_cons, concat_cons, IH.
Qed.

(** X13: over any run of calls on a switch, each call returns and issues
    exactly one write, always of boolean type.  [False] is only ever written
    to the status variable, and only by a switch without a turn-off variable;
    a switch whose turn-on and turn-off variables both differ from the status
    variable never writes the status variable at all. *)
Theorem switch_commands (self : Switch.AdsSwitch) (cs : list Command) (world : World) :
  ∃ issued,
    calls switch_call self cs world
      = (Py.Return tt, mkWorld (warnings world) (hub_writes world ++ issued))
    ∧ length issued = length cs
    ∧ Forall (fun wr => w_type wr = PLCTYPE_BOOL) issued
    ∧ Forall (fun wr => w_value wr = ValBool false →
                        w_name wr = Switch._ads_var self
                        ∧ Switch._ads_var_turn_off self = None) issued
    ∧ (∀ on off,
          Switch._ads_var_turn_on self = Some on →
          Switch._ads_var_turn_off self = Some off →
          on ≠ Switch._ads_var self → off ≠ Switch._ads_var self →
          Forall (fun wr => w_name wr ≠ Switch._ads_var self
                            ∧ w_value wr = ValBool true) issued).
Proof.
  eexists. split; [apply switch_calls_run |].
  split_and!.
  - apply length_fmap.
  - apply Forall_fmap, Forall_forall. intros c _. simpl.
    destruct c; [done |]. simpl. by destruct (Switch._ads_var_turn_off self).
  - apply Forall_fmap, Forall_forall. intros c _. simpl.
    destruct c; [done |]. simpl. by destruct (Switch._ads_var_turn_off self).
  - intros on off Hon Hoff Hne1 Hne2.
    apply Forall_fmap, Forall_forall. intros c _. simpl.
    unfold switch_call_write. rewrite Hon, Hoff. by destruct c.
Qed.

(** X14: a switch without turn-on and turn-off variables drives the status
    variable directly: over any run of calls the writes are, in order, one
    boolean write to the status variable per call carrying the state asked
    for, so the last write carries the state of the last call. *)
Theorem switch_level_commands
    (is_on name : string) (cs : list Command) (world : World) :
  ∃ issued,
    calls switch_call (Switch.init is_on None None name) cs world
      = (Py.Return tt, mkWorld (warnings world) (hub_writes world ++ issued))
    ∧ issued = (fun c => mkWrite is_on (ValBool (wants_on c)) PLCTYPE_BOOL) <$> cs
    ∧ last issued
      = (fun c => mkWrite is_on (ValBool (wants_on c)) PLCTYPE_BOOL) <$> last cs.
Proof.
  eexists. split; [apply switch_calls_run |].
  assert (Hall : switch_call_write (Switch.init is_on None None name) <$> cs
                 = (fun c => mkWrite is_on (ValBool (wants_on c)) PLCTYPE_BOOL) <$> cs).
  { apply list_fmap_ext. by intros i []. }
  split; [exact Hall |].
  rewrite Hall. by rewrite fmap_last.
Qed.

(** ** Platform set-up *)

Section SetUp.

Variables DATA_ADS CONF_ADS_VAR CONF_NAME : string.

(** X15: setting up the light platform needs the hub under [hass.data] and
    the status variable and the name in the configuration: with any of them
    missing it raises [KeyError] and adds nothing.  Otherwise it adds exactly
    one light, bound to the configured status variable, whose colour mode is
    RGBW exactly when the configuration names a colour variable and ONOFF
    exactly when it names neither optional variable, and whose turn-on writes
    a supplied brightness to the configured brightness variable. *)
Theorem light_setup_platform_spec
    (hass_data : gmap string AdsHub) (config : gmap string string) (world : World) :
  let run := Platform.light_setup_platform DATA_ADS CONF_ADS_VAR CONF_NAME
               hass_data config world in
  (hass_data !! DATA_ADS = None ∨ config !! CONF_ADS_VAR = None ∨ config !! CONF_NAME = None →
     run = (Py.Raise Py.KeyError, world))
  ∧ (∀ hub var name,
        hass_data !! DATA_ADS = Some hub →
        config !! CONF_ADS_VAR = Some var →
        config !! CONF_NAME = Some name →
        ∃ light,
          run = (Py.Return [light], world)
          ∧ Light._ads_var light = var
          ∧ (Light._attr_color_mode light = RGBW
             ↔ is_Some (config !! Platform.CONF_ADS_VAR_RGBW_COLOR))
          ∧ (Light._attr_color_mode light = ONOFF
             ↔ config !! Platform.CONF_ADS_VAR_RGBW_COLOR = None
               ∧ config !! Platform.CONF_ADS_VAR_BRIGHTNESS = None)
          ∧ (∀ bvar level w,
                config !! Platform.CONF_ADS_VAR_BRIGHTNESS = Some bvar →
                brightness_write bvar level
                  ∈ hub_writes (Light.turn_on light (mkKwargs (Some level) None) w).2)).
Proof.
  intros run. subst run. unfold Platform.light_setup_platform, dict_getitem. run_monad.
  split.
  - intros Hmiss.
    destruct (hass_data !! DATA_ADS); [| done].
    destruct (config !! CONF_ADS_VAR); [| done].
    destruct (config !! CONF_NAME); [| done].
    by destruct_or!.
  - intros hub var name -> -> ->. eexists. split; [done |].
    split_and!; [done | | |].
    + simpl. destruct (config !! Platform.CONF_ADS_VAR_RGBW_COLOR),
        (config !! Platform.CONF_ADS_VAR_BRIGHTNESS); simpl; split;
        try done; try (by intros [? [=]]); by eauto.
    + simpl. destruct (config !! Platform.CONF_ADS_VAR_RGBW_COLOR),
        (config !! Platform.CONF_ADS_VAR_BRIGHTNESS); simpl; split;
        try done; by intros [[=] [=]] || by intros [? ?].
    + intros bvar level w Hb. rewrite light_turn_on_run. simpl.
      unfold due_brightness. simpl. rewrite Hb. set_solver.
Qed.

(** X16: setting up the switch platform needs the same three entries and
    raises [KeyError] without them.  Otherwise it adds exactly one switch on
    the configured status variable; turning it off writes [True] to the
    configured turn-off variable when the configuration names one and [False]
    to the status variable when it does not, and turning it on writes [True]
    to the configured turn-on variable or else to the status variable. *)
Theorem switch_setup_platform_spec
    (hass_data : gmap string AdsHub) (config : gmap string string) (world : World) :
  let run := Platform.switch_setup_platform DATA_ADS CONF_ADS_VAR CONF_NAME
               hass_data config world in
  (hass_data !! DATA_ADS = None ∨ config !! CONF_ADS_VAR = None ∨ config !! CONF_NAME = None →
     run = (Py.Raise Py.KeyError, world))
  ∧ (∀ hub var name,
        hass_data !! DATA_ADS = Some hub →
        config !! CONF_ADS_VAR = Some var →
        config !! CONF_NAME = Some name →
        ∃ switch,
          run = (Py.Return [switch], world)
          ∧ Switch._ads_var switch = var
          ∧ (∀ kwargs w,
                (Switch.turn_off switch kwargs w).2
                = mkWorld (warnings w)
                    (hub_writes w
                     ++ [match config !! Platform.CONF_ADS_VAR_TURN_OFF with
                         | Some off => mkWrite off (ValBool true) PLCTYPE_BOOL
                         | None => mkWrite var (ValBool false) PLCTYPE_BOOL
                         end]))
          ∧ (∀ kwargs w,
                (Switch.turn_on switch kwargs w).2
                = mkWorld (warnings w)
                    (hub_writes w
                     ++ [mkWrite (default var (config !! Platform.CONF_ADS_VAR_TURN_ON))
                           (ValBool true) PLCTYPE_BOOL]))).
Proof.
  intros run. subst run. unfold Platform.switch_setup_platform, dict_getitem. run_monad.
  split.
  - intros Hmiss.
    destruct (hass_data !! DATA_ADS); [| done].
    destruct (config !! CONF_NAME); [| done].
    destruct (config !! CONF_ADS_VAR); [| done].
    by destruct_or!.
  - intros hub var name -> -> ->. eexists. split; [done |].
    split_and!; [done | |].
    + intros kwargs w. unfold Switch.turn_off. simpl.
      by destruct (config !! Platform.CONF_ADS_VAR_TURN_OFF).
    + intros kwargs w. unfold Switch.turn_on. simpl.
      by destruct (config !! Platform.CONF_ADS_VAR_TURN_ON).
Qed.

End SetUp.

(** ** Subscriptions *)

(** X17: a light subscribes to its status variable as a boolean, to the
    brightness variable as an unsigned integer exactly when one is configured,
    and to the colour variable as a four-cell array exactly when one is
    configured, and to nothing else; no two of its subscriptions fill the same
    slot. *)
Theorem light_subscriptions
    (enable name : string) (bri col : option string) :
  let subs := Light.async_added_to_hass (Light.init enable bri col name) in
  NoDup (sub_key <$> subs)
  ∧ (∀ s, s ∈ subs ↔
          s = mkSubscription enable PLCTYPE_BOOL STATE_KEY_STATE
          ∨ (∃ var, bri = Some var
                    ∧ s = mkSubscription var PLCTYPE_UINT Light.STATE_KEY_BRIGHTNESS)
          ∨ (∃ var, col = Some var
                    ∧ s = mkSubscription var (PLCTYPE_ARR_UINT 4) Light.STATE_KEY_RGBW_COLOR))
  ∧ length subs = (1 + length (option_list bri) + length (option_list col))%nat.
Proof.
  intros subs. subst subs. unfold Light.async_added_to_hass. simpl.
  destruct bri as [bvar |], col as [cvar |]; simpl.
  all: split_and!; [| | done].
  all: try (repeat (apply NoDup_cons; split; [set_solver |]); apply NoDup_nil_2).
  all: intros s; rewrite ?elem_of_cons, elem_of_nil; naive_solver.
Qed.

(** A notification leaves the switch's subscription as it is. *)
Lemma switch_notify_subscriptions (self : Switch.AdsSwitch) (ev : Subscription * Py.val) :
  Switch.async_added_to_hass (switch_notify self ev) = Switch.async_added_to_hass self.
Proof. unfold switch_notify. by case_bool_decide. Qed.

(** X18: a switch subscribes to its status variable only, so [is_on]
    returns what that subscription last notified, as it is, and [None] (not a
    boolean) before its first notification; events for any other
    subscription, such as one on the turn-on or turn-off variable, never show
    in it. *)
Theorem switch_is_on_last_notified
    (is_on name : string) (on off : option string)
    (evs : list (Subscription * Py.val)) (world : World) :
  let status := mkSubscription is_on PLCTYPE_BOOL STATE_KEY_STATE in
  Switch.async_added_to_hass (Switch.init is_on on off name) = [status]
  ∧ Switch.is_on (switch_notify_all (Switch.init is_on on off name) evs) world
    = (Py.Return (default Py.None_
                    (last (omap (fun ev : Subscription * Py.val =>
                                   if bool_decide (ev.1 = status) then Some ev.2 else None)
                             evs))),
       world).
Proof.
  intros status. split; [done |].
  assert (Hslot : ∀ self,
            Switch.async_added_to_hass self = [status] →
            Switch._state_dict (switch_notify_all self evs) !! STATE_KEY_STATE
            = match last (omap (fun ev : Subscription * Py.val =>
                                  if bool_decide (ev.1 = status) then Some ev.2 else None)
                            evs) with
              | Some v => Some v
              | None => Switch._state_dict self !! STATE_KEY_STATE
              end).
  { intros self Hsubs. induction evs as [| ev evs IH] using rev_ind; [done |].
    unfold switch_notify_all in *. rewrite foldl_app, omap_app. simpl.
    set (prev := foldl switch_notify self evs) in *.
    assert (Hprev : Switch.async_added_to_hass prev = [status]).
    { subst prev. clear IH. induction evs as [| e es IHes] using rev_ind; [done |].
      by rewrite foldl_app; simpl; rewrite switch_notify_subscriptions. }
    unfold switch_notify. rewrite Hprev.
    destruct (decide (ev.1 = status)) as [Heq | Hne].
    - rewrite bool_decide_eq_true_2 by (rewrite Heq; set_solver).
      rewrite (bool_decide_eq_true_2 _ Heq), last_snoc.
      unfold Switch._state_dict. simpl. rewrite Heq. simpl. apply lookup_insert_eq.
    - rewrite bool_decide_eq_false_2 by set_solver.
      rewrite (bool_decide_eq_false_2 _ Hne), app_nil_r. apply IH. }
  unfold Switch.is_on. run_monad.
  rewrite (Hslot (Switch.init is_on on off name) eq_refl).
  by destruct (last _).
Qed.

(** ** The further properties at sample inputs *)

Lemma rgbw_color_channels_in_range_witness :
  Light.rgbw_color no_literal
    (color_light (Py.List [Py.Int 300; Py.Int (-5); Py.Int 128; Py.Int 256])) empty_world
  = (Py.Return (Some (255, 0, 128, 255)),
     mkWorld
       [WARNING "rgbw_color values out of range 0-255: R=%d, G=%d, B=%d, W=%d"
          [ArgInt 300; ArgInt (-5); ArgInt 128; ArgInt 256]]
       [])
  ∧ (0 ≤ 255 ≤ 255 ∧ 0 ≤ 0 ≤ 255 ∧ 0 ≤ 128 ≤ 255 ∧ 0 ≤ 255 ≤ 255).
Proof.
  split; [vm_compute; reflexivity |].
  eapply (rgbw_color_channels_in_range no_literal
            (color_light (Py.List [Py.Int 300; Py.Int (-5); Py.Int 128; Py.Int 256]))
            empty_world).
  vm_compute. reflexivity.
Defined.

Lemma rgbw_color_raises_only_witness :
  ∃ items s,
    Light._state_dict
      (color_light (Py.Tuple [Py.Int 1; Py.Int 2; Py.Float (S754_infinity true); Py.Int 4]))
      !! Light.STATE_KEY_RGBW_COLOR = Some (Py.Tuple items)
    ∧ length items = 4%nat
    ∧ Py.Float (S754_infinity s) ∈ items.
Proof.
  destruct (rgbw_color_raises_only no_literal
              (color_light (Py.Tuple [Py.Int 1; Py.Int 2; Py.Float (S754_infinity true);
                                      Py.Int 4]))
              empty_world empty_world Py.OverflowError)
    as [_ [[Hkey _] | (_ & items & s & Hslot & Hlen & Hin)]].
  - vm_compute. reflexivity.
  - discriminate Hkey.
  - exists items, s. destruct Hslot as [Hslot | Hslot]; [by split_and! |].
    vm_compute in Hslot. discriminate Hslot.
Defined.

(** A boolean, the float 25.5, an integer and the float -0.0 are read as
    1, 25, 255 and 0. *)
Lemma rgbw_color_coerces_witness :
  Light.rgbw_color no_literal
    (color_light (Py.Tuple [Py.Bool true; Py.Float (S754_finite false 51 (-1));
                            Py.Int 300; Py.Float (S754_zero true)])) empty_world
  = (Py.Return (Some (1, 25, 255, 0)),
     mkWorld
       [WARNING "rgbw_color values out of range 0-255: R=%d, G=%d, B=%d, W=%d"
          [ArgInt 1; ArgInt 25; ArgInt 300; ArgInt 0]]
       []).
Proof.
  apply (rgbw_color_coerces no_literal _
           (Py.Tuple [Py.Bool true; Py.Float (S754_finite false 51 (-1));
                      Py.Int 300; Py.Float (S754_zero true)])
           (Py.Bool true) (Py.Float (S754_finite false 51 (-1)))
           (Py.Int 300) (Py.Float (S754_zero true)) 1 25 300 0 empty_world);
    [vm_compute; reflexivity | left; reflexivity | reflexivity..].
Defined.

(** A string of four characters is not taken for a sequence of four
    channels. *)
Lemma rgbw_color_unexpected_shape_witness :
  Light.rgbw_color no_literal (color_light (Py.Str "abcd")) empty_world
  = (Py.Return None,
     mkWorld
       [WARNING "Unexpected rgbw_color value (expected tuple/list of 4): %s"
          [ArgType Py.str_]]
       []).
Proof.
  apply (rgbw_color_unexpected_shape no_literal (color_light (Py.Str "abcd"))
           (Py.Str "abcd") empty_world);
    [vm_compute; reflexivity | discriminate | intros items [H | H]; discriminate H].
Defined.

Lemma rgbw_color_non_integer_witness :
  Light.rgbw_color no_literal
    (color_light (Py.List [Py.Int 1; Py.None_; Py.Int 3; Py.Str "x"])) empty_world
  = (Py.Return None,
     mkWorld
       [WARNING "rgbw_color has non-integer values: %s"
          [ArgVal (Py.List [Py.Int 1; Py.None_; Py.Int 3; Py.Str "x"])]]
       []).
Proof.
  apply (rgbw_color_non_integer no_literal _
           (Py.List [Py.Int 1; Py.None_; Py.Int 3; Py.Str "x"])
           [Py.Int 1; Py.None_; Py.Int 3; Py.Str "x"] empty_world);
    [vm_compute; reflexivity | right; reflexivity | reflexivity | |].
  - repeat (apply List.Forall_cons; [intros s; discriminate |]). apply List.Forall_nil.
  - intros Hall. apply Forall_cons in Hall as [_ Hall].
    apply Forall_cons in Hall as [[z Hz] _]. discriminate Hz.
Defined.

Lemma light_turn_on_cells_witness :
  ∃ issued,
    Light.turn_on (color_light Py.None_) (mkKwargs None (Some [255; 128; 0; 64])) empty_world
      = (Py.Return tt, mkWorld [] issued)
    ∧ mkWrite "GVL.aColor" (ValArr [255; 128; 0; 64]) (PLCTYPE_ARR_UINT 4) ∈ issued.
Proof.
  destruct (light_turn_on_cells (color_light Py.None_)
              (mkKwargs None (Some [255; 128; 0; 64])) empty_world)
    as (issued & Hrun & _ & Hsame).
  exists issued. split; [exact Hrun |].
  apply Hsame; [reflexivity | reflexivity | reflexivity |].
  repeat (apply List.Forall_cons; [lia |]). apply List.Forall_nil.
Defined.

Lemma light_color_round_trip_witness :
  ∃ cells,
    mkWrite "GVL.aColor" (ValArr cells) (PLCTYPE_ARR_UINT 4)
      ∈ hub_writes
          (Light.turn_on (Light.init "GVL.bLamp" None (Some "GVL.aColor") "ADS Light")
             (mkKwargs None (Some [10; 20; 30; 40])) empty_world).2
    ∧ Light.rgbw_color no_literal
        (Light.notify (Light.init "GVL.bLamp" None (Some "GVL.aColor") "ADS Light")
           (mkSubscription "GVL.aColor" (PLCTYPE_ARR_UINT 4) Light.STATE_KEY_RGBW_COLOR,
            int_seq false cells)) empty_world
      = (Py.Return (Some (10, 20, 30, 40)), empty_world).
Proof.
  destruct (light_color_round_trip no_literal "GVL.bLamp" "ADS Light" "GVL.aColor"
              None None 10 20 30 40 empty_world)
    as (cells & Hwrite & _ & Hback).
  exists cells. split; [exact Hwrite |].
  apply Hback; lia.
Defined.

Lemma light_mode_bounds_writes_witness :
  ∃ issued,
    Light.turn_on (Light.init "GVL.bLamp" (Some "GVL.nLevel") (Some "GVL.aColor") "ADS Light")
      (mkKwargs (Some 200) None) empty_world
      = (Py.Return tt, mkWorld [] issued)
    ∧ brightness_write "GVL.nLevel" 200 ∈ issued.
Proof.
  destruct (light_mode_bounds_writes "GVL.bLamp" "ADS Light" (Some "GVL.nLevel")
              (Some "GVL.aColor") (mkKwargs (Some 200) None) empty_world)
    as (issued & Hrun & Hmode).
  exists issued. split; [exact Hrun |].
  apply Hmode; reflexivity.
Defined.

Lemma switch_commands_witness :
  ∃ issued,
    calls switch_call (Switch.init "GVL.bOn" (Some "GVL.bOnCmd") (Some "GVL.bOffCmd") "ADS Switch")
      [TurnOn (mkKwargs None None); TurnOff (mkKwargs None None); TurnOff (mkKwargs None None)]
      empty_world
      = (Py.Return tt, mkWorld [] issued)
    ∧ Forall (fun wr => w_name wr ≠ "GVL.bOn" ∧ w_value wr = ValBool true) issued.
Proof.
  destruct (switch_commands
              (Switch.init "GVL.bOn" (Some "GVL.bOnCmd") (Some "GVL.bOffCmd") "ADS Switch")
              [TurnOn (mkKwargs None None); TurnOff (mkKwargs None None);
               TurnOff (mkKwargs None None)]
              empty_world)
    as (issued & Hrun & _ & _ & _ & Hpulse).
  exists issued. split; [exact Hrun |].
  apply (Hpulse "GVL.bOnCmd" "GVL.bOffCmd"); [reflexivity | reflexivity | discriminate..].
Defined.

Lemma light_setup_platform_spec_witness :
  ∃ light,
    Platform.light_setup_platform "data_ads" "adsvar" "name"
      {[ "data_ads" := ads_hub ]}
      (<["adsvar" := "GVL.bLamp"]> (<["adsvar_brightness" := "GVL.nLevel"]>
         {[ "name" := "ADS Light" ]}))
      empty_world
    = (Py.Return [light], empty_world)
    ∧ Light._ads_var light = "GVL.bLamp"
    ∧ brightness_write "GVL.nLevel" 128
        ∈ hub_writes (Light.turn_on light (mkKwargs (Some 128) None) empty_world).2.
Proof.
  destruct (light_setup_platform_spec "data_ads" "adsvar" "name"
              {[ "data_ads" := ads_hub ]}
              (<["adsvar" := "GVL.bLamp"]> (<["adsvar_brightness" := "GVL.nLevel"]>
                 {[ "name" := "ADS Light" ]}))
              empty_world) as [_ Hok].
  destruct (Hok ads_hub "GVL.bLamp" "ADS Light") as (light & Hrun & Hvar & _ & _ & Hbri);
    [vm_compute; reflexivity..|].
  exists light. split; [exact Hrun |]. split; [exact Hvar |].
  apply Hbri. vm_compute. reflexivity.
Defined.

Lemma switch_setup_platform_spec_witness :
  ∃ switch,
    Platform.switch_setup_platform "data_ads" "adsvar" "name"
      {[ "data_ads" := ads_hub ]}
      (<["adsvar" := "GVL.bOn"]> (<["adsvar_turn_off" := "GVL.bOffCmd"]>
         {[ "name" := "ADS Switch" ]}))
      empty_world
    = (Py.Return [switch], empty_world)
    ∧ Switch._ads_var switch = "GVL.bOn".
Proof.
  destruct (switch_setup_platform_spec "data_ads" "adsvar" "name"
              {[ "data_ads" := ads_hub ]}
              (<["adsvar" := "GVL.bOn"]> (<["adsvar_turn_off" := "GVL.bOffCmd"]>
                 {[ "name" := "ADS Switch" ]}))
              empty_world) as [_ Hok].
  destruct (Hok ads_hub "GVL.bOn" "ADS Switch") as (switch & Hrun & Hvar & _);
    [vm_compute; reflexivity..|].
  exists switch. split; [exact Hrun | exact Hvar].
Defined.
